(** * wg-portal: the server core (internal/server/core.go)

    A shallow embedding of [Server.Setup], [Server.Run], the session helpers
    ([getSessionData], [getFlashes], [updateSessionData],
    [destroySessionData], [setFlashMessage]) and [SessionData.GetSortIcon].

    The request-scoped helpers are written in a state monad with panics over
    the gin context; [Setup] and [Run] are written in a state monad over the
    server and a trace of the calls they make; the two goroutines started by
    [Run] are interaction trees, because they never return; that they keep
    their interval for ever is stated as a greatest fixed point (Paco). *)

From Stdlib Require Import ZArith String List Lia Program.Equality.
From stdpp Require Import base option gmap strings list.
From ITree Require Import ITree.
From Paco Require Import paco.
Import ListNotations.
Local Open Scope string_scope.
Local Open Scope Z_scope.
Local Open Scope list_scope.
Set Warnings "-register-all".

(** ** Go values *)

(** A Go [error]: [None] is [nil], [Some msg] an error with message [msg]. *)
Abbreviation error := (option string) (only parsing).

(** [errors.New]. *)
Definition errors_New (msg : string) : error := Some msg.

(** The [time] package: a [Duration] counts nanoseconds. *)
Definition Duration : Type := Z.
Definition Nanosecond : Duration := 1.
Definition Microsecond : Duration := 1000 * Nanosecond.
Definition Millisecond : Duration := 1000 * Microsecond.
Definition Second : Duration := 1000 * Millisecond.
Definition Minute : Duration := 60 * Second.

Definition SessionIdentifier : string := "wgPortalSession".
Definition CacheRefreshDuration : Duration := 5 * Minute.

(** A line handed to logrus: level, format string and the rendered
    arguments. *)
Variant Level := DebugLevel | InfoLevel | WarnLevel | ErrorLevel.

Record LogEntry := Logf { level : Level; format : string; args : list string }.

(** ** Programs: state passing with panics

    A Go function that changes state [St] and returns an [A], or panics.  A
    panic keeps the state reached so far. *)
Variant res (A : Type) :=
| Val (a : A)
| Panic (msg : string).
Arguments Val {A} a.
Arguments Panic {A} msg.

Definition Prog (St A : Type) : Type := St -> St * res A.

#[global] Instance Prog_ret {St} : MRet (Prog St) := fun A a c => (c, Val a).

#[global] Instance Prog_bind {St} : MBind (Prog St) := fun A B k m c =>
  match m c with
  | (c', Val a) => k a c'
  | (c', Panic msg) => (c', Panic msg)
  end.

Definition panic {St A} (msg : string) : Prog St A := fun c => (c, Panic msg).

(** Reading the current state. *)
Definition current {St} : Prog St St := fun c => (c, Val c).

(** The empty statement. *)
Definition skip {St} : Prog St unit := mret tt.

(** [*p] for a pointer [p] that may be nil. *)
Definition deref {St A} (p : option A) : Prog St A :=
  match p with
  | Some a => mret a
  | None => panic "invalid memory address or nil pointer dereference"
  end.

(** ** Data model *)

(** The part of [common.Config] that core.go reads. *)
Record CoreConfig := {
  ListeningAddress : string;
  Title : string;
  CompanyName : string;
  DatabasePath : string;
  SyncLdapStatus : bool
}.

Record Config := { Core : CoreConfig }.

(** Objects built by collaborators; core.go only holds on to them. *)
Variant Authentication := ldap_Authentication.
Variant SynchronizedUserCacheHolder := ldap_SynchronizedUserCacheHolder.
Record UserCache := { LastError : error }.
Variant Manager := wireguard_Manager.
Variant UserManager := UserManager_at (path : string).
Variant Template := Template_of (file : string).
Variant Engine := gin_Engine.

(** Pointer fields are options: [None] is [nil]. *)
Record Server := {
  config : option Config;
  server : option Engine;
  users : option UserManager;
  mailTpl : option Template;
  wg : option Manager;
  ldapDisabled : bool;
  ldapAuth : option Authentication;
  ldapUsers : option SynchronizedUserCacheHolder;
  ldapCacheUpdater : option UserCache
}.

(** [init] registers with gob the types a session holds: [SessionData],
    [FlashData], and the payloads [Peer], [Device] and [LdapCreateForm].  The
    session store (memstore) keeps a gob copy of the values it is given: what
    encoding and decoding makes of them.  For the registered payloads the
    encoding succeeds; the copy need not be the value itself (a pointer comes
    back as what it points to), but the copy of a copy is that copy. *)
Class Gob (FormValue : Type) := {
  gob_copy : FormValue -> FormValue;
  gob_copy_idempotent : forall v, gob_copy (gob_copy v) = gob_copy v
}.

Section Session.

(** What the open-ended [FormData interface{}] field carries: a [Peer], a
    [Device] or an [LdapCreateForm] (declared in other files of the package),
    the payload types that [init] registers with gob. *)
Context {FormValue : Type}.
Context `{!Gob FormValue}.

Record SessionData := {
  LoggedIn : bool;
  IsAdmin : bool;
  UID : string;
  UserName : string;
  Firstname : string;
  Lastname : string;
  Email : string;
  SortedBy : string;
  SortDirection : string;
  Search : string;
  AlertData : string;
  AlertType : string;
  FormData : option FormValue
}.

Record FlashData := {
  HasAlert : bool;
  Message : string;
  Type_ : string
}.

(** ** SessionData.GetSortIcon *)

Definition GetSortIcon (s : SessionData) (field : string) : string :=
  if negb (String.eqb (SortedBy s) field) then "fa-sort"
  else if String.eqb (SortDirection s) "asc" then "fa-sort-alpha-down"
  else "fa-sort-alpha-up".

(** ** The session library (gin-contrib/sessions over gorilla/sessions,
       with the memstore backend installed by [Setup])

    A session is a map from keys to dynamically typed values, loaded from the
    store when a request starts, changed in memory by [Set], [Delete],
    [AddFlash] and [Flashes], and written back by [Save] when something was
    changed. *)

(** The dynamic values ([interface{}]) this program keeps in a session. *)
Inductive Any :=
| ASessionData (d : SessionData)
| AFlashData (f : FlashData)
| ASlice (l : list Any).

(** The gob copy of a record: strings and booleans come back as they are,
    the payload as its copy. *)
Definition gob_SessionData (d : SessionData) : SessionData :=
  {| LoggedIn := LoggedIn d; IsAdmin := IsAdmin d; UID := UID d;
     UserName := UserName d; Firstname := Firstname d; Lastname := Lastname d;
     Email := Email d; SortedBy := SortedBy d; SortDirection := SortDirection d;
     Search := Search d; AlertData := AlertData d; AlertType := AlertType d;
     FormData := gob_copy <$> FormData d |}.

Fixpoint gob_Any (v : Any) : Any :=
  match v with
  | ASessionData d => ASessionData (gob_SessionData d)
  | AFlashData f => AFlashData f
  | ASlice l => ASlice (map gob_Any l)
  end.

(** gorilla/sessions keeps the flashes under this key. *)
Definition flashKey : string := "_flash".

Variant SessionCall :=
| CallGet (key : string)
| CallSet (key : string) (val : Any)
| CallDelete (key : string)
| CallAddFlash (val : Any)
| CallFlashes
| CallSave.

(** What a handler reaches through its receiver and its [*gin.Context]:
    - [self]: the server [s];
    - [values], [written]: the session object of this request;
    - [store]: what the backend holds for this session;
    - [faults]: the results of the backend writes still to come (a write
      beyond the list succeeds);
    - [calls]: the session methods invoked so far;
    - [logs]: the lines logged so far. *)
Record Context := {
  self : Server;
  values : gmap string Any;
  written : bool;
  store : gmap string Any;
  faults : list error;
  calls : list SessionCall;
  logs : list LogEntry
}.

Abbreviation Handler := (Prog Context).

Definition called (call : SessionCall) : Handler unit := fun c =>
  ({| self := self c; values := values c; written := written c;
      store := store c; faults := faults c;
      calls := calls c ++ [call]; logs := logs c |}, Val tt).

Definition logrus (l : Level) (fmt : string) (a : list string) : Handler unit :=
  fun c =>
  ({| self := self c; values := values c; written := written c;
      store := store c; faults := faults c;
      calls := calls c; logs := logs c ++ [Logf l fmt a] |}, Val tt).

Definition set_values (v : gmap string Any) (w : bool) : Handler unit := fun c =>
  ({| self := self c; values := v; written := w;
      store := store c; faults := faults c;
      calls := calls c; logs := logs c |}, Val tt).

(** [session.Get(key)]: [None] is the nil interface. *)
Definition session_Get (key : string) : Handler (option Any) :=
  called (CallGet key);;
  c ← current;
  mret (values c !! key).

Definition session_Set (key : string) (val : Any) : Handler unit :=
  called (CallSet key val);;
  c ← current;
  set_values (<[key := val]> (values c)) true.

Definition session_Delete (key : string) : Handler unit :=
  called (CallDelete key);;
  c ← current;
  set_values (delete key (values c)) true.

(** [v.([]interface{})] *)
Definition assert_slice (v : Any) : Handler (list Any) :=
  match v with
  | ASlice l => mret l
  | _ => panic "interface conversion: interface {} is not []interface {}"
  end.

Definition session_AddFlash (val : Any) : Handler unit :=
  called (CallAddFlash val);;
  c ← current;
  flashes ← match values c !! flashKey with
            | Some v => assert_slice v
            | None => mret []
            end;
  set_values (<[flashKey := ASlice (flashes ++ [val])]> (values c)) true.

(** [session.Flashes()]: the flashes are dropped from the session as they
    are returned. *)
Definition session_Flashes : Handler (list Any) :=
  called CallFlashes;;
  c ← current;
  match values c !! flashKey with
  | Some v => set_values (delete flashKey (values c)) true;; assert_slice v
  | None => set_values (values c) true;; mret []
  end.

(** The backend write of [Save]: consumes the next fault; on success the
    store takes a gob copy of the session's values, and the session keeps
    its own. *)
Definition store_Save : Handler error := fun c =>
  match faults c with
  | Some e :: rest =>
      ({| self := self c; values := values c; written := written c;
          store := store c; faults := rest;
          calls := calls c; logs := logs c |}, Val (Some e))
  | None :: rest =>
      ({| self := self c; values := values c; written := false;
          store := gob_Any <$> values c; faults := rest;
          calls := calls c; logs := logs c |}, Val None)
  | [] =>
      ({| self := self c; values := values c; written := false;
          store := gob_Any <$> values c; faults := [];
          calls := calls c; logs := logs c |}, Val None)
  end.

(** [session.Save()]: writes only when the session was changed. *)
Definition session_Save : Handler error :=
  called CallSave;;
  c ← current;
  if written c then store_Save else mret None.

(** The next request of the same session: its session object is loaded from
    the store.  The store hands out a gob copy of what it holds; what it
    holds was written by [store_Save] and is a gob copy already, and the copy
    of a copy is that copy ([gob_copy_idempotent]), so the values arrive as
    they are in the store. *)
Definition next_request (c : Context) : Context :=
  {| self := self c; values := store c; written := false;
     store := store c; faults := faults c;
     calls := calls c; logs := logs c |}.

(** ** The session helpers of core.go *)

(** [raw.(SessionData)] *)
Definition assert_SessionData (raw : Any) : Handler SessionData :=
  match raw with
  | ASessionData d => mret d
  | _ => panic "interface conversion: interface {} is not server.SessionData"
  end.

(** [raw.(FlashData)] *)
Definition assert_FlashData (raw : Any) : Handler FlashData :=
  match raw with
  | AFlashData f => mret f
  | _ => panic "interface conversion: interface {} is not server.FlashData"
  end.

Definition getSessionData : Handler SessionData :=
  rawSessionData ← session_Get SessionIdentifier;
  match rawSessionData with
  | Some raw => assert_SessionData raw
  | None =>
      let sessionData :=
        {| LoggedIn := false; IsAdmin := false;
           UID := ""; UserName := "";
           Firstname := ""; Lastname := ""; Email := "";
           SortedBy := "mail"; SortDirection := "asc";
           Search := ""; AlertData := ""; AlertType := "";
           FormData := None |} in
      session_Set SessionIdentifier (ASessionData sessionData);;
      err ← session_Save;
      match err with
      | Some e => logrus ErrorLevel "Failed to store session: %v" [e]
      | None => skip
      end;;
      mret sessionData
  end.

(** The loop [for i := range flashes { flashData[i] = flashes[i].(FlashData) }]. *)
Fixpoint convert_flashes (flashes : list Any) : Handler (list FlashData) :=
  match flashes with
  | [] => mret []
  | raw :: rest =>
      f ← assert_FlashData raw;
      fs ← convert_flashes rest;
      mret (f :: fs)
  end.

Definition getFlashes : Handler (list FlashData) :=
  flashes ← session_Flashes;
  err ← session_Save;
  match err with
  | Some e => logrus ErrorLevel "Failed to store session after setting flash: %v" [e]
  | None => skip
  end;;
  convert_flashes flashes.

Definition updateSessionData (data : SessionData) : Handler error :=
  session_Set SessionIdentifier (ASessionData data);;
  err ← session_Save;
  match err with
  | Some e =>
      logrus ErrorLevel "Failed to store session: %v" [e];;
      mret err
  | None => mret None
  end.

Definition destroySessionData : Handler error :=
  session_Delete SessionIdentifier;;
  err ← session_Save;
  match err with
  | Some e =>
      logrus ErrorLevel "Failed to destroy session: %v" [e];;
      mret err
  | None => mret None
  end.

Definition setFlashMessage (message typ : string) : Handler unit :=
  session_AddFlash (AFlashData {| HasAlert := false; Message := message; Type_ := typ |});;
  err ← session_Save;
  match err with
  | Some e => logrus ErrorLevel "Failed to store session after setting flash: %v" [e]
  | None => skip
  end.

End Session.

Arguments SessionData : clear implicits.
Arguments Any : clear implicits.
Arguments Context : clear implicits.

(** ** Startup: [Setup] and [Run] *)

(** The two goroutines [Run] starts, under the names the Go runtime gives
    to the closures. *)
Variant Goroutine := Run_func1 | Run_func2.

(** The calls [Setup] and [Run] make to their collaborators, with the results
    they got where core.go looks at them. *)
Variant Event :=
| Logged (l : LogEntry)
| rand_Seed (seed : Z)
| common_NewConfig
| ldap_NewAuthentication
| ldapUsers_Init
| ldap_NewUserCache
| wg_Init (r : error)
| NewUserManager (path : string) (r : option UserManager)
| users_InitFromCurrentInterface (r : error)
| RestoreWireGuardInterface (r : error)
| template_ParseFiles (file : string) (r : error)
| gin_SetMode
| gin_New
| server_Use (middleware : list string)
| server_SetFuncMap (names : list string)
| server_LoadHTMLGlob (pattern : string)
| server_Static (relativePath root : string)
| SetupRoutes
| Go (g : Goroutine)
| server_Run (addr : string) (r : error).

(** What the collaborators answer during startup.  gin's [LoadHTMLGlob]
    panics when a page template does not parse; the page templates are taken
    to parse, and nothing below says that [Setup] returns whenever its
    collaborators succeed. *)
Record Env := {
  filepath_Join : string -> string -> string;
  (** [filepath.Abs(filepath.Dir(os.Args[0]))] *)
  executable_dir : string * error;
  (** [os.IsNotExist(err)] for the [err] of [os.Stat(path)] *)
  stat_IsNotExist : string -> bool;
  time_Now_UnixNano : Z;
  NewConfig_result : Config;
  NewUserCache_result : UserCache;
  wg_Init_result : error;
  NewUserManager_result : string -> option UserManager;
  InitFromCurrentInterface_result : error;
  RestoreWireGuardInterface_result : error;
  ParseFiles_result : string -> error;
  server_Run_result : string -> error
}.

(** The process during startup: the host, the server [s], and the calls made
    so far. *)
Record Boot := {
  env : Env;
  this : Server;
  trace : list Event
}.

Abbreviation Proc := (Prog Boot).

Definition emit (e : Event) : Proc unit := fun b =>
  ({| env := env b; this := this b; trace := trace b ++ [e] |}, Val tt).

Definition logf (l : Level) (fmt : string) (a : list string) : Proc unit :=
  emit (Logged (Logf l fmt a)).

(** Assignments to the fields of [s]. *)
Definition modify (f : Server -> Server) : Proc unit := fun b =>
  ({| env := env b; this := f (this b); trace := trace b |}, Val tt).

Definition set_config (v : option Config) (s : Server) : Server :=
  {| config := v; server := server s; users := users s; mailTpl := mailTpl s;
     wg := wg s; ldapDisabled := ldapDisabled s; ldapAuth := ldapAuth s;
     ldapUsers := ldapUsers s; ldapCacheUpdater := ldapCacheUpdater s |}.

Definition set_server (v : option Engine) (s : Server) : Server :=
  {| config := config s; server := v; users := users s; mailTpl := mailTpl s;
     wg := wg s; ldapDisabled := ldapDisabled s; ldapAuth := ldapAuth s;
     ldapUsers := ldapUsers s; ldapCacheUpdater := ldapCacheUpdater s |}.

Definition set_users (v : option UserManager) (s : Server) : Server :=
  {| config := config s; server := server s; users := v; mailTpl := mailTpl s;
     wg := wg s; ldapDisabled := ldapDisabled s; ldapAuth := ldapAuth s;
     ldapUsers := ldapUsers s; ldapCacheUpdater := ldapCacheUpdater s |}.

Definition set_mailTpl (v : option Template) (s : Server) : Server :=
  {| config := config s; server := server s; users := users s; mailTpl := v;
     wg := wg s; ldapDisabled := ldapDisabled s; ldapAuth := ldapAuth s;
     ldapUsers := ldapUsers s; ldapCacheUpdater := ldapCacheUpdater s |}.

Definition set_wg (v : option Manager) (s : Server) : Server :=
  {| config := config s; server := server s; users := users s; mailTpl := mailTpl s;
     wg := v; ldapDisabled := ldapDisabled s; ldapAuth := ldapAuth s;
     ldapUsers := ldapUsers s; ldapCacheUpdater := ldapCacheUpdater s |}.

Definition set_ldapDisabled (v : bool) (s : Server) : Server :=
  {| config := config s; server := server s; users := users s; mailTpl := mailTpl s;
     wg := wg s; ldapDisabled := v; ldapAuth := ldapAuth s;
     ldapUsers := ldapUsers s; ldapCacheUpdater := ldapCacheUpdater s |}.

Definition set_ldapAuth (v : option Authentication) (s : Server) : Server :=
  {| config := config s; server := server s; users := users s; mailTpl := mailTpl s;
     wg := wg s; ldapDisabled := ldapDisabled s; ldapAuth := v;
     ldapUsers := ldapUsers s; ldapCacheUpdater := ldapCacheUpdater s |}.

Definition set_ldapUsers (v : option SynchronizedUserCacheHolder) (s : Server) : Server :=
  {| config := config s; server := server s; users := users s; mailTpl := mailTpl s;
     wg := wg s; ldapDisabled := ldapDisabled s; ldapAuth := ldapAuth s;
     ldapUsers := v; ldapCacheUpdater := ldapCacheUpdater s |}.

Definition set_ldapCacheUpdater (v : option UserCache) (s : Server) : Server :=
  {| config := config s; server := server s; users := users s; mailTpl := mailTpl s;
     wg := wg s; ldapDisabled := ldapDisabled s; ldapAuth := ldapAuth s;
     ldapUsers := ldapUsers s; ldapCacheUpdater := v |}.

Definition getExecutableDirectory : Proc string :=
  b ← current;
  let '(dir, err) := executable_dir (env b) in
  match err with
  | Some e => logf ErrorLevel "Failed to get executable directory: %v" [e]
  | None => skip
  end;;
  if stat_IsNotExist (env b) (filepath_Join (env b) dir "assets")
  then mret "."
  else mret dir.

Definition Setup : Proc error :=
  dir ← getExecutableDirectory;
  b ← current;
  let E := env b in
  let join := filepath_Join E in
  let rDir := fst (executable_dir E) in
  logf InfoLevel "Real working directory: %s" [rDir];;
  logf InfoLevel "Current working directory: %s" [dir];;
  (* Init rand *)
  emit (rand_Seed (time_Now_UnixNano E));;
  emit common_NewConfig;;
  let cfg := NewConfig_result E in
  modify (set_config (Some cfg));;
  (* Setup LDAP stuff *)
  emit ldap_NewAuthentication;;
  modify (set_ldapAuth (Some ldap_Authentication));;
  modify (set_ldapUsers (Some ldap_SynchronizedUserCacheHolder));;
  emit ldapUsers_Init;;
  emit ldap_NewUserCache;;
  let updater := NewUserCache_result E in
  modify (set_ldapCacheUpdater (Some updater));;
  match LastError updater with
  | Some e =>
      logf WarnLevel "LDAP error: %v" [e];;
      logf WarnLevel "LDAP features disabled!" [];;
      modify (set_ldapDisabled true)
  | None => skip
  end;;
  (* Setup WireGuard stuff *)
  modify (set_wg (Some wireguard_Manager));;
  emit (wg_Init (wg_Init_result E));;
  match wg_Init_result E with
  | Some e => mret (Some e)
  | None =>
  (* Setup user manager *)
  let path := join dir (DatabasePath (Core cfg)) in
  emit (NewUserManager path (NewUserManager_result E path));;
  modify (set_users (NewUserManager_result E path));;
  match NewUserManager_result E path with
  | None => mret (errors_New "unable to setup user manager")
  | Some _ =>
  emit (users_InitFromCurrentInterface (InitFromCurrentInterface_result E));;
  match InitFromCurrentInterface_result E with
  | Some _ => mret (errors_New "unable to initialize user manager")
  | None =>
  emit (RestoreWireGuardInterface (RestoreWireGuardInterface_result E));;
  match RestoreWireGuardInterface_result E with
  | Some _ => mret (errors_New "unable to restore WireGuard state")
  | None =>
  (* Setup mail template *)
  let file := join dir "/assets/tpl/email.html" in
  emit (template_ParseFiles file (ParseFiles_result E file));;
  modify (set_mailTpl (match ParseFiles_result E file with
                       | Some _ => None
                       | None => Some (Template_of file)
                       end));;
  match ParseFiles_result E file with
  | Some _ => mret (errors_New "unable to pare mail template")
  | None =>
  (* Setup http server *)
  emit gin_SetMode;;
  emit gin_New;;
  modify (set_server (Some gin_Engine));;
  emit (server_Use ["ginlogrus.Logger"; "gin.Recovery"]);;
  emit (server_SetFuncMap ["formatBytes"; "urlEncode"]);;
  (* Setup templates *)
  logf InfoLevel "Loading templates from: %s" [join dir "/assets/tpl/*.html"];;
  emit (server_LoadHTMLGlob (join dir "/assets/tpl/*.html"));;
  emit (server_Use ["sessions.Sessions"]);;
  (* Serve static files *)
  emit (server_Static "/css" (join dir "/assets/css"));;
  emit (server_Static "/js" (join dir "/assets/js"));;
  emit (server_Static "/img" (join dir "/assets/img"));;
  emit (server_Static "/fonts" (join dir "/assets/fonts"));;
  (* Setup all routes *)
  emit SetupRoutes;;
  logf InfoLevel "Setup of service completed!" [];;
  mret None
  end end end end end.

Definition Run : Proc unit :=
  s ← (b ← current; mret (this b));
  (* Start ldap group watcher *)
  (if negb (ldapDisabled s) then emit (Go Run_func1) else skip);;
  sync ← (if negb (ldapDisabled s)
          then cfg ← deref (config s); mret (SyncLdapStatus (Core cfg))
          else mret false : Proc bool);
  (if (sync : bool) then emit (Go Run_func2) else skip);;
  (* Run web service *)
  cfg ← deref (config s);
  b ← current;
  let addr := ListeningAddress (Core cfg) in
  let err := server_Run_result (env b) addr in
  emit (server_Run addr err);;
  match err with
  | Some e => logf ErrorLevel "Failed to listen and serve on %s: %v" [addr; e]
  | None => skip
  end.

(** ** The goroutines started by [Run]

    Each is a [for { ... }] without exit: an interaction tree that never
    returns.  Its events are what it asks of the rest of the process. *)

Variant taskE : Type -> Type :=
| time_Sleep (d : Duration) : taskE unit
(** [s.ldapCacheUpdater.Update(a, b)] *)
| ldapCacheUpdater_Update (a b : bool) : taskE error
(** [s.SyncLdapAttributesWithWireGuard()] *)
| SyncLdapAttributesWithWireGuard : taskE error
| logrus_Log (l : LogEntry) : taskE unit.

#[global] Instance itree_ret {E} : MRet (itree E) := fun A a => Ret a.
#[global] Instance itree_bind {E} : MBind (itree E) := fun A B k t => ITree.bind t k.

Definition do {X} (e : taskE X) : itree taskE X := ITree.trigger e.

Definition nothing : itree taskE unit := Ret tt.

(** One turn of the loop of the ldap group watcher. *)
Definition func1_body : itree taskE unit :=
  do (time_Sleep CacheRefreshDuration);;
  err ← do (ldapCacheUpdater_Update true true);
  match err with
  | Some e => do (logrus_Log (Logf WarnLevel "Failed to update ldap group cache: %v" [e]))
  | None => nothing
  end;;
  do (logrus_Log (Logf DebugLevel "Refreshed LDAP permissions!" [])).

(** One turn of the loop of the attribute synchronisation. *)
Definition func2_body : itree taskE unit :=
  do (time_Sleep CacheRefreshDuration);;
  err ← do SyncLdapAttributesWithWireGuard;
  match err with
  | Some e => do (logrus_Log (Logf WarnLevel "Failed to synchronize ldap attributes: %v" [e]))
  | None => nothing
  end;;
  do (logrus_Log (Logf DebugLevel "Synced LDAP attributes!" [])).

Definition goroutine (g : Goroutine) : itree taskE void :=
  match g with
  | Run_func1 => ITree.forever func1_body
  | Run_func2 => ITree.forever func2_body
  end.

(** *** Runs of a goroutine

    An event together with the answer it received. *)
Variant Action :=
| Slept (d : Duration)
| Updated (a b : bool) (r : error)
| Synced (r : error)
| Wrote (l : LogEntry).

Definition action {X} (e : taskE X) : X -> Action :=
  match e in taskE X return X -> Action with
  | time_Sleep d => fun _ => Slept d
  | ldapCacheUpdater_Update a b => fun r => Updated a b r
  | SyncLdapAttributesWithWireGuard => fun r => Synced r
  | logrus_Log l => fun _ => Wrote l
  end.

(** [run t acts u]: the tree [t] performs exactly the actions [acts], its
    events receiving the answers recorded in them, and continues as [u].
    Silent steps are skipped. *)
Inductive run {R} : itree taskE R -> list Action -> itree taskE R -> Prop :=
| run_done t : run t [] t
| run_tau t t' acts u :
    observe t = TauF t' -> run t' acts u -> run t acts u
| run_vis t X (e : taskE X) k (x : X) acts u :
    observe t = VisF e k -> run (k x) acts u -> run t (action e x :: acts) u.

(** What one turn of each loop does when its call answers [r]. *)
Definition func1_turn (r : error) : list Action :=
  [Slept CacheRefreshDuration; Updated true true r] ++
  match r with
  | Some e => [Wrote (Logf WarnLevel "Failed to update ldap group cache: %v" [e])]
  | None => []
  end ++
  [Wrote (Logf DebugLevel "Refreshed LDAP permissions!" [])].

Definition func2_turn (r : error) : list Action :=
  [Slept CacheRefreshDuration; Synced r] ++
  match r with
  | Some e => [Wrote (Logf WarnLevel "Failed to synchronize ldap attributes: %v" [e])]
  | None => []
  end ++
  [Wrote (Logf DebugLevel "Synced LDAP attributes!" [])].

Definition turn (g : Goroutine) : error -> list Action :=
  match g with
  | Run_func1 => func1_turn
  | Run_func2 => func2_turn
  end.

(** *** A goroutine that keeps its interval

    [periodic d t]: along every path of [t], whatever its calls answer, [t]
    never returns and every sleep lasts exactly [d].  It is the greatest
    fixed point of [periodic_step]. *)
Variant periodicF (d : Duration) (rec : itree taskE void -> Prop) :
  itree' taskE void -> Prop :=
| periodic_tau t : rec t -> periodicF d rec (TauF t)
| periodic_sleep k : rec (k tt) -> periodicF d rec (VisF (time_Sleep d) k)
| periodic_update a b k :
    (forall r, rec (k r)) -> periodicF d rec (VisF (ldapCacheUpdater_Update a b) k)
| periodic_sync k :
    (forall r, rec (k r)) -> periodicF d rec (VisF SyncLdapAttributesWithWireGuard k)
| periodic_log l k : rec (k tt) -> periodicF d rec (VisF (logrus_Log l) k).

Definition periodic_step (d : Duration) (rec : itree taskE void -> Prop)
  (t : itree taskE void) : Prop :=
  periodicF d rec (observe t).

Definition periodic (d : Duration) (t : itree taskE void) : Prop :=
  paco1 (periodic_step d) bot1 t.

(** ** Vocabulary of the statements *)

(** A process about to start: nothing has been called yet. *)
Definition boot (E : Env) (s : Server) : Boot :=
  {| env := E; this := s; trace := [] |}.

(** The result of the next write to the session backend. *)
Definition next_fault {FormValue} (c : Context FormValue) : error :=
  match faults c with
  | r :: _ => r
  | [] => None
  end.

Definition is_restore (ev : Event) : bool :=
  match ev with
  | RestoreWireGuardInterface _ => true
  | _ => false
  end.

(** The initialisation steps that [Setup] has after the restore: the mail
    template, the HTTP server and the routes. *)
Definition is_later_step (ev : Event) : bool :=
  match ev with
  | template_ParseFiles _ _ | gin_SetMode | gin_New | server_Use _
  | server_SetFuncMap _ | server_LoadHTMLGlob _ | server_Static _ _
  | SetupRoutes => true
  | _ => false
  end.

(** Starting a background task, or serving HTTP. *)
Definition is_start (ev : Event) : bool :=
  match ev with
  | Go _ | server_Run _ _ => true
  | _ => false
  end.

(** The goroutines started in a trace, in order. *)
Definition started (tr : list Event) : list Goroutine :=
  flat_map (fun ev => match ev with Go g => [g] | _ => [] end) tr.

(** ** Sample states *)

(** A payload without content is its own copy. *)
#[global] Instance Gob_unit : Gob unit :=
  {| gob_copy := fun v => v; gob_copy_idempotent := fun v => eq_refl |}.

(** [Server{}] *)
Definition zero_Server : Server :=
  {| config := None; server := None; users := None; mailTpl := None;
     wg := None; ldapDisabled := false; ldapAuth := None; ldapUsers := None;
     ldapCacheUpdater := None |}.

Definition sample_Config (sync : bool) : Config :=
  {| Core := {| ListeningAddress := ":8123"; Title := "WireGuard VPN";
                CompanyName := "WireGuard Portal"; DatabasePath := "data/wg_portal.db";
                SyncLdapStatus := sync |} |}.

(** A host on which every collaborator succeeds, except that LDAP answers
    [ldap] and the restore answers [restore]. *)
Definition sample_Env (ldap restore : error) : Env :=
  {| filepath_Join := fun dir elem =>
       if String.prefix "/" elem then String.append dir elem
       else String.append dir (String.append "/" elem);
     executable_dir := ("/opt/wg-portal", None);
     stat_IsNotExist := fun _ => false;
     time_Now_UnixNano := 1600000000000000000;
     NewConfig_result := sample_Config true;
     NewUserCache_result := {| LastError := ldap |};
     wg_Init_result := None;
     NewUserManager_result := fun path => Some (UserManager_at path);
     InitFromCurrentInterface_result := None;
     RestoreWireGuardInterface_result := restore;
     ParseFiles_result := fun _ => None;
     server_Run_result := fun _ => None |}.

(** A server that came out of [Setup] with LDAP disabled. *)
Definition server_without_ldap : Server :=
  {| config := Some (sample_Config true); server := Some gin_Engine;
     users := Some (UserManager_at "/opt/wg-portal/data/wg_portal.db");
     mailTpl := Some (Template_of "/opt/wg-portal/assets/tpl/email.html");
     wg := Some wireguard_Manager; ldapDisabled := true;
     ldapAuth := Some ldap_Authentication;
     ldapUsers := Some ldap_SynchronizedUserCacheHolder;
     ldapCacheUpdater := Some {| LastError := Some "LDAP Result Code 200" |} |}.

(** A server that came out of [Setup] with LDAP available; [sync] is
    [Core.SyncLdapStatus]. *)
Definition server_with_ldap (sync : bool) : Server :=
  {| config := Some (sample_Config sync); server := Some gin_Engine;
     users := Some (UserManager_at "/opt/wg-portal/data/wg_portal.db");
     mailTpl := Some (Template_of "/opt/wg-portal/assets/tpl/email.html");
     wg := Some wireguard_Manager; ldapDisabled := false;
     ldapAuth := Some ldap_Authentication;
     ldapUsers := Some ldap_SynchronizedUserCacheHolder;
     ldapCacheUpdater := Some {| LastError := None |} |}.

(** A request of a session the store has never seen; the backend writes of
    this request answer [fs]. *)
Definition fresh_request (fs : list error) : Context unit :=
  {| self := server_without_ldap; values := ∅; written := false; store := ∅;
     faults := fs; calls := []; logs := [] |}.

Definition sample_SessionData : SessionData unit :=
  {| LoggedIn := true; IsAdmin := true; UID := "jdoe"; UserName := "jdoe";
     Firstname := "John"; Lastname := "Doe"; Email := "jdoe@example.org";
     SortedBy := "handshake"; SortDirection := "desc"; Search := "";
     AlertData := ""; AlertType := ""; FormData := None |}.

(** The default record, as a later request finds it. *)
Definition default_SessionData : SessionData unit :=
  {| LoggedIn := false; IsAdmin := false; UID := ""; UserName := "";
     Firstname := ""; Lastname := ""; Email := "";
     SortedBy := "mail"; SortDirection := "asc"; Search := "";
     AlertData := ""; AlertType := ""; FormData := None |}.

Definition sample_FlashData : FlashData :=
  {| HasAlert := false; Message := "peer created"; Type_ := "success" |}.

(** A request of a logged-in session with one pending flash; the session
    object has just been loaded from the store. *)
Definition returning_request (fs : list error) : Context unit :=
  let vals : gmap string (Any unit) :=
    <[flashKey := ASlice [AFlashData sample_FlashData]]>
      (<[SessionIdentifier := ASessionData sample_SessionData]> ∅) in
  {| self := server_without_ldap; values := vals; written := false;
     store := vals; faults := fs; calls := []; logs := [] |}.

(** ** Further code of core.go *)

Record StaticData := {
  WebsiteTitle : string;
  WebsiteLogo : string;
  StaticData_CompanyName : string;
  Year : Z;
  LdapDisabled : bool
}.

(** [year] is what [time.Now().Year()] answers. *)
Definition getStaticData (year : Z) : Proc StaticData :=
  b ← current;
  let s := this b in
  cfg ← deref (config s);
  mret {| WebsiteTitle := Title (Core cfg);
          WebsiteLogo := "/img/header-logo.png";
          StaticData_CompanyName := CompanyName (Core cfg);
          LdapDisabled := ldapDisabled s;
          Year := year |}.

(** ** Further vocabulary *)

(** The host [E], with [uc] for the answer of [ldap.NewUserCache]. *)
Definition with_ldap (E : Env) (uc : UserCache) : Env :=
  {| filepath_Join := filepath_Join E;
     executable_dir := executable_dir E;
     stat_IsNotExist := stat_IsNotExist E;
     time_Now_UnixNano := time_Now_UnixNano E;
     NewConfig_result := NewConfig_result E;
     NewUserCache_result := uc;
     wg_Init_result := wg_Init_result E;
     NewUserManager_result := NewUserManager_result E;
     InitFromCurrentInterface_result := InitFromCurrentInterface_result E;
     RestoreWireGuardInterface_result := RestoreWireGuardInterface_result E;
     ParseFiles_result := ParseFiles_result E;
     server_Run_result := server_Run_result E |}.

(** The steps of [Setup] that build the HTTP server. *)
Definition is_http_step (ev : Event) : bool :=
  match ev with
  | gin_SetMode | gin_New | server_Use _ | server_SetFuncMap _
  | server_LoadHTMLGlob _ | server_Static _ _ | SetupRoutes => true
  | _ => false
  end.

Definition is_serve (ev : Event) : bool :=
  match ev with
  | server_Run _ _ => true
  | _ => false
  end.

Definition is_sleep (a : Action) : bool :=
  match a with
  | Slept _ => true
  | _ => false
  end.

(** The call a goroutine is there for. *)
Definition is_call (a : Action) : bool :=
  match a with
  | Updated _ _ _ | Synced _ => true
  | _ => false
  end.

(** What a goroutine may do at all. *)
Definition own_action (g : Goroutine) (a : Action) : Prop :=
  match a with
  | Slept d => d = CacheRefreshDuration
  | Updated force1 force2 _ => g = Run_func1 /\ force1 = true /\ force2 = true
  | Synced _ => g = Run_func2
  | Wrote l => level l = WarnLevel \/ level l = DebugLevel
  end.

Section SessionVocabulary.
Context {FormValue : Type}.
Context `{!Gob FormValue}.

(** The session holds [fs] as its pending flashes, in this order. *)
Definition pending (m : gmap string (Any FormValue)) (fs : list FlashData) : Prop :=
  m !! flashKey = Some (ASlice (map AFlashData fs)) \/
  (m !! flashKey = None /\ fs = []).

(** Values as the helpers write them: a [SessionData] under
    [SessionIdentifier], a slice of [FlashData] under the flash key. *)
Definition well_typed_values (m : gmap string (Any FormValue)) : Prop :=
  (forall v, m !! SessionIdentifier = Some v -> exists d, v = ASessionData d) /\
  (forall v, m !! flashKey = Some v -> exists fs, v = ASlice (map AFlashData fs)).

Definition well_typed (c : Context FormValue) : Prop :=
  well_typed_values (values c) /\ well_typed_values (store c).

(** What the handlers of a session do with it, one after the other: calls of
    the helpers, and the passage to the next request. *)
Variant Use :=
| UseGetSessionData
| UseGetFlashes
| UseUpdateSessionData (data : SessionData FormValue)
| UseDestroySessionData
| UseSetFlashMessage (message typ : string)
| NextRequest.

Definition use (u : Use) : Prog (Context FormValue) unit :=
  match u with
  | UseGetSessionData => getSessionData;; skip
  | UseGetFlashes => getFlashes;; skip
  | UseUpdateSessionData data => updateSessionData data;; skip
  | UseDestroySessionData => destroySessionData;; skip
  | UseSetFlashMessage message typ => setFlashMessage message typ
  | NextRequest => fun c => (next_request c, Val tt)
  end.

Fixpoint use_all (us : list Use) : Prog (Context FormValue) unit :=
  match us with
  | [] => skip
  | u :: rest => use u;; use_all rest
  end.

End SessionVocabulary.

Arguments Use : clear implicits.

(** A startup with everything in order. *)
Definition sample_startup : Boot := (Setup (boot (sample_Env None None) zero_Server)).1.


(** ** Properties *)

Section RunSteps.
Context {R : Type}.
Implicit Types (t u : itree taskE R) (acts : list Action).

Lemma run_sleep t d k acts u :
  observe t = VisF (time_Sleep d) k -> run (k tt) acts u -> run t (Slept d :: acts) u.
Proof. intros Ht Hk. exact (run_vis t _ (time_Sleep d) k tt acts u Ht Hk). Qed.

Lemma run_update t a b k r acts u :
  observe t = VisF (ldapCacheUpdater_Update a b) k ->
  run (k r) acts u -> run t (Updated a b r :: acts) u.
Proof. intros Ht Hk. exact (run_vis t _ (ldapCacheUpdater_Update a b) k r acts u Ht Hk). Qed.

Lemma run_sync t k r acts u :
  observe t = VisF SyncLdapAttributesWithWireGuard k ->
  run (k r) acts u -> run t (Synced r :: acts) u.
Proof. intros Ht Hk. exact (run_vis t _ SyncLdapAttributesWithWireGuard k r acts u Ht Hk). Qed.

Lemma run_log t l k acts u :
  observe t = VisF (logrus_Log l) k -> run (k tt) acts u -> run t (Wrote l :: acts) u.
Proof. intros Ht Hk. exact (run_vis t _ (logrus_Log l) k tt acts u Ht Hk). Qed.

Lemma run_app t acts u acts' v :
  run t acts u -> run u acts' v -> run t (acts ++ acts') v.
Proof.
  induction 1 as [t|t t' acts u Ht _ IH|t X e k x acts u Ht _ IH]; intros Hv; cbn.
  - exact Hv.
  - eapply run_tau; eauto.
  - eapply run_vis; eauto.
Qed.
End RunSteps.

Ltac run_step :=
  first [ eapply run_sleep; [cbn; reflexivity|]
        | eapply run_update; [cbn; reflexivity|]
        | eapply run_sync; [cbn; reflexivity|]
        | eapply run_log; [cbn; reflexivity|]
        | eapply run_tau; [cbn; reflexivity|] ].

Lemma func1_one_turn (r : error) :
  run (goroutine Run_func1) (func1_turn r) (goroutine Run_func1).
Proof. destruct r as [e|]; cbn; repeat run_step; apply run_done. Qed.

Lemma func2_one_turn (r : error) :
  run (goroutine Run_func2) (func2_turn r) (goroutine Run_func2).
Proof. destruct r as [e|]; cbn; repeat run_step; apply run_done. Qed.

(** *** Sessions *)

Ltac run_handler :=
  unfold getSessionData, getFlashes, updateSessionData, destroySessionData,
    setFlashMessage, session_Get, session_Set, session_Delete, session_Flashes,
    session_AddFlash, session_Save, store_Save, called, set_values, logrus,
    current, skip, next_request, next_fault;
  unfold mbind, mret, Prog_bind, Prog_ret; cbn.

Section SessionFacts.
Context {FormValue : Type}.
Context `{!Gob FormValue}.
Implicit Types (c : Context FormValue) (d data : SessionData FormValue).

(** What the store holds under a key is the copy of what the session held. *)
Lemma lookup_gob (m : gmap string (Any FormValue)) (key : string) :
  (gob_Any <$> m) !! key = gob_Any <$> (m !! key).
Proof. apply lookup_fmap. Qed.

(** The copy of a copy is that copy: the store, which holds copies, hands
    out what it holds. *)
Lemma gob_Any_idempotent : forall v : Any FormValue, gob_Any (gob_Any v) = gob_Any v.
Proof.
  fix IH 1. intros [d|f|l]; cbn.
  - f_equal. unfold gob_SessionData. cbn.
    destruct (FormData d) as [v|]; cbn; [rewrite gob_copy_idempotent|]; reflexivity.
  - reflexivity.
  - f_equal. induction l as [|v l IHl]; cbn; [reflexivity|].
    rewrite IH, IHl. reflexivity.
Qed.

Lemma gob_values_idempotent (m : gmap string (Any FormValue)) :
  gob_Any <$> (gob_Any <$> m) = gob_Any <$> m.
Proof.
  rewrite <- map_fmap_compose. apply map_fmap_ext.
  intros key v _. apply gob_Any_idempotent.
Qed.


Lemma getSessionData_existing c d :
  values c !! SessionIdentifier = Some (ASessionData d) ->
  getSessionData c =
    ({| self := self c; values := values c; written := written c;
        store := store c; faults := faults c;
        calls := calls c ++ [CallGet SessionIdentifier]; logs := logs c |},
     Val d).
Proof. intros H. run_handler. rewrite H. reflexivity. Qed.

(** What [getSessionData] does when the session holds no record. *)
Lemma getSessionData_missing c :
  values c !! SessionIdentifier = None ->
  exists d c',
    getSessionData c = (c', Val d) /\
    d = {| LoggedIn := false; IsAdmin := false; UID := ""; UserName := "";
           Firstname := ""; Lastname := ""; Email := "";
           SortedBy := "mail"; SortDirection := "asc";
           Search := ""; AlertData := ""; AlertType := ""; FormData := None |} /\
    self c' = self c /\
    values c' = <[SessionIdentifier := ASessionData d]> (values c) /\
    store c' = match next_fault c with
               | None => gob_Any <$> values c'
               | Some _ => store c
               end /\
    calls c' = calls c ++ [CallGet SessionIdentifier;
                           CallSet SessionIdentifier (ASessionData d);
                           CallSave] /\
    logs c' = logs c ++ match next_fault c with
                        | Some e => [Logf ErrorLevel "Failed to store session: %v" [e]]
                        | None => []
                        end.
Proof.
  intros H. run_handler. rewrite H.
  destruct (faults c) as [|[e|] rest]; cbn;
    eexists _, _; (split; [reflexivity|]); cbn;
    rewrite ?app_nil_r, <- ?app_assoc; cbn; auto 10.
Qed.

Lemma updateSessionData_run c data :
  exists c',
    updateSessionData data c = (c', Val (next_fault c)) /\
    self c' = self c /\
    values c' = <[SessionIdentifier := ASessionData data]> (values c) /\
    store c' = match next_fault c with
               | None => gob_Any <$> values c'
               | Some _ => store c
               end /\
    logs c' = logs c ++ match next_fault c with
                        | Some e => [Logf ErrorLevel "Failed to store session: %v" [e]]
                        | None => []
                        end.
Proof.
  run_handler.
  destruct (faults c) as [|[e|] rest]; cbn;
    eexists; (split; [reflexivity|]); cbn; rewrite ?app_nil_r; auto.
Qed.

Lemma destroySessionData_run c :
  exists c',
    destroySessionData c = (c', Val (next_fault c)) /\
    self c' = self c /\
    values c' = delete SessionIdentifier (values c) /\
    store c' = match next_fault c with
               | None => gob_Any <$> values c'
               | Some _ => store c
               end /\
    logs c' = logs c ++ match next_fault c with
                        | Some e => [Logf ErrorLevel "Failed to destroy session: %v" [e]]
                        | None => []
                        end.
Proof.
  run_handler.
  destruct (faults c) as [|[e|] rest]; cbn;
    eexists; (split; [reflexivity|]); cbn; rewrite ?app_nil_r; auto.
Qed.

(** The conversion loop of [getFlashes] touches no state. *)
Lemma convert_flashes_pure (flashes : list (Any FormValue)) c :
  (convert_flashes flashes c).1 = c.
Proof.
  revert c. induction flashes as [|raw rest IH]; intros c; [reflexivity|].
  cbn. unfold mbind, Prog_bind.
  destruct raw; cbn; try reflexivity.
  specialize (IH c). destruct (convert_flashes rest c) as [c1 [fs|msg]]; cbn in *; auto.
Qed.

(** Without flashes in the session, [getFlashes] returns the empty
    sequence. *)
Lemma getFlashes_none c :
  values c !! flashKey = None -> (getFlashes c).2 = Val [].
Proof.
  intros H. run_handler. rewrite H. cbn.
  destruct (faults c) as [|[e|] rest]; reflexivity.
Qed.

(** When [getFlashes] returns, the flashes are gone from the session, and
    the store has what the session has if the write succeeded. *)
Lemma getFlashes_returns c fs :
  (getFlashes c).2 = Val fs ->
  values (getFlashes c).1 = delete flashKey (values c) /\
  store (getFlashes c).1 = match next_fault c with
                           | None => gob_Any <$> delete flashKey (values c)
                           | Some _ => store c
                           end.
Proof.
  run_handler.
  destruct (values c !! flashKey) as [[d|f|l]|] eqn:Hv; cbn; try discriminate.
  - destruct (faults c) as [|[e|] rest]; cbn; intros _;
      match goal with
      | |- context [convert_flashes l ?c0] =>
          pose proof (convert_flashes_pure l c0) as Hp;
          destruct (convert_flashes l c0) as [c1 r]; cbn in Hp; subst c1
      end; cbn; auto.
  - rewrite (delete_id (values c) flashKey Hv).
    destruct (faults c) as [|[e|] rest]; cbn; auto.
Qed.

(** C10: [GetSortIcon] is total, and for every session data [s] and field
    [f] it returns "fa-sort" when [s] is not sorted by [f]; otherwise
    "fa-sort-alpha-down" when the direction is "asc" and "fa-sort-alpha-up"
    for every other direction. *)
Theorem GetSortIcon_cases (s : SessionData FormValue) (f : string) :
  (SortedBy s <> f -> GetSortIcon s f = "fa-sort") /\
  (SortedBy s = f -> SortDirection s = "asc" ->
     GetSortIcon s f = "fa-sort-alpha-down") /\
  (SortedBy s = f -> SortDirection s <> "asc" ->
     GetSortIcon s f = "fa-sort-alpha-up").
Proof.
  unfold GetSortIcon.
  destruct (String.eqb_spec (SortedBy s) f) as [Hf|Hf];
    destruct (String.eqb_spec (SortDirection s) "asc") as [Hd|Hd];
    cbn; repeat split; intros; congruence.
Qed.

(** C9: on a session that already holds a record, [getSessionData] returns
    that record and writes nothing: the session, the store and the log are
    as before, and the only session method invoked is [Get] (no [Set], no
    [Save]). *)
Theorem getSessionData_reads_only c d :
  values c !! SessionIdentifier = Some (ASessionData d) ->
  (getSessionData c).2 = Val d /\
  values (getSessionData c).1 = values c /\
  written (getSessionData c).1 = written c /\
  store (getSessionData c).1 = store c /\
  faults (getSessionData c).1 = faults c /\
  logs (getSessionData c).1 = logs c /\
  self (getSessionData c).1 = self c /\
  calls (getSessionData c).1 = calls c ++ [CallGet SessionIdentifier].
Proof.
  intros H. rewrite (getSessionData_existing c d H). cbn. auto 10.
Qed.

(** C2: on a session without a record, [getSessionData] returns the default
    record (sorted by "mail", ascending, logged out, not admin, empty
    identity fields), puts it into the session with [Set] and calls [Save]
    at once, so that the store has it when the write succeeds; a second
    call returns the same value, in the same request and, for a session the
    store had not seen either, in the next request. *)
Theorem getSessionData_default_stable c :
  values c !! SessionIdentifier = None ->
  exists d c',
    getSessionData c = (c', Val d) /\
    (SortedBy d = "mail" /\ SortDirection d = "asc" /\
     LoggedIn d = false /\ IsAdmin d = false /\
     UID d = "" /\ UserName d = "" /\
     Firstname d = "" /\ Lastname d = "" /\ Email d = "") /\
    values c' !! SessionIdentifier = Some (ASessionData d) /\
    calls c' = calls c ++ [CallGet SessionIdentifier;
                           CallSet SessionIdentifier (ASessionData d);
                           CallSave] /\
    (next_fault c = None ->
       store c' !! SessionIdentifier = Some (ASessionData d)) /\
    (getSessionData c').2 = Val d /\
    (store c !! SessionIdentifier = None ->
       (getSessionData (next_request c')).2 = Val d).
Proof.
  intros H.
  destruct (getSessionData_missing c H)
    as (d & c' & Hrun & Hd & _ & Hvalues & Hstore & Hcalls & _).
  assert (Hin : values c' !! SessionIdentifier = Some (ASessionData d))
    by (rewrite Hvalues; apply lookup_insert_eq).
  assert (Hcopy : (gob_Any <$> values c') !! SessionIdentifier
                  = Some (ASessionData d))
    by (rewrite lookup_gob, Hin, Hd; reflexivity).
  exists d, c'. split; [exact Hrun|].
  split; [subst d; cbn; auto 10|].
  split; [exact Hin|]. split; [exact Hcalls|].
  split; [intros Hok; rewrite Hstore, Hok; exact Hcopy|].
  split; [rewrite (getSessionData_existing c' d Hin); reflexivity|].
  intros Hunseen. destruct (next_fault c) as [e|].
  - assert (Hnone : values (next_request c') !! SessionIdentifier = None)
      by (cbn; rewrite Hstore; exact Hunseen).
    destruct (getSessionData_missing _ Hnone) as (d2 & c2 & Hrun2 & Hd2 & _).
    rewrite Hrun2. cbn. congruence.
  - assert (Hsome : values (next_request c') !! SessionIdentifier
                    = Some (ASessionData d))
      by (cbn; rewrite Hstore; exact Hcopy).
    rewrite (getSessionData_existing _ d Hsome). reflexivity.
Qed.

(** C3: after a call of [getFlashes] that returned a non-empty sequence, the
    next call on the same session returns the empty sequence: the first
    call removed the flashes from the session, and from the store as well
    when its write succeeded, so that the next request finds none
    either. *)
Theorem getFlashes_one_shot c fs :
  (getFlashes c).2 = Val fs -> fs <> [] ->
  (getFlashes (getFlashes c).1).2 = Val [] /\
  values (getFlashes c).1 !! flashKey = None /\
  (next_fault c = None ->
     store (getFlashes c).1 !! flashKey = None /\
     (getFlashes (next_request (getFlashes c).1)).2 = Val []).
Proof.
  intros Hret _.
  destruct (getFlashes_returns c fs Hret) as [Hvalues Hstore].
  assert (Hgone : values (getFlashes c).1 !! flashKey = None)
    by (rewrite Hvalues; apply lookup_delete_eq).
  split; [apply getFlashes_none; exact Hgone|].
  split; [exact Hgone|].
  intros Hok. rewrite Hok in Hstore.
  assert (Hs : store (getFlashes c).1 !! flashKey = None)
    by (rewrite Hstore, lookup_gob, lookup_delete_eq; reflexivity).
  split; [exact Hs|]. apply getFlashes_none. exact Hs.
Qed.

(** C7: [updateSessionData] puts the record into the session with [Set],
    [destroySessionData] removes it with [Delete], and each then calls
    [Save], which writes to the session store, the session being marked as
    changed.  Each returns exactly the result of that write: the write's
    error when it fails (the store is then as it was, and the error is logged
    once), nil when it succeeds (the store then holds the gob copy of the
    session's values).  The error is this operation's own, one outcome of the
    store is used up, and the server [s], which holds the only error field
    ([ldapCacheUpdater.LastError]), is left as it was. *)
Theorem update_destroy_return_store_result c data :
  updateSessionData data c =
    (let vals := <[SessionIdentifier := ASessionData data]> (values c) in
     {| self := self c;
        values := vals;
        written := match next_fault c with Some _ => true | None => false end;
        store := match next_fault c with
                 | Some _ => store c
                 | None => gob_Any <$> vals
                 end;
        faults := List.tl (faults c);
        calls := calls c ++ [CallSet SessionIdentifier (ASessionData data); CallSave];
        logs := logs c ++ match next_fault c with
                          | Some e => [Logf ErrorLevel "Failed to store session: %v" [e]]
                          | None => []
                          end |},
     Val (next_fault c)) /\
  destroySessionData c =
    (let vals := delete SessionIdentifier (values c) in
     {| self := self c;
        values := vals;
        written := match next_fault c with Some _ => true | None => false end;
        store := match next_fault c with
                 | Some _ => store c
                 | None => gob_Any <$> vals
                 end;
        faults := List.tl (faults c);
        calls := calls c ++ [CallDelete SessionIdentifier; CallSave];
        logs := logs c ++ match next_fault c with
                          | Some e => [Logf ErrorLevel "Failed to destroy session: %v" [e]]
                          | None => []
                          end |},
     Val (next_fault c)).
Proof.
  split; run_handler;
    destruct (faults c) as [|[e|] rest]; cbn;
    rewrite ?app_nil_r, <- ?app_assoc; reflexivity.
Qed.


End SessionFacts.

Lemma GetSortIcon_cases_witness :
  GetSortIcon sample_SessionData "mail" = "fa-sort" /\
  GetSortIcon default_SessionData "mail" = "fa-sort-alpha-down" /\
  GetSortIcon sample_SessionData "handshake" = "fa-sort-alpha-up".
Proof.
  split; [|split].
  - apply (GetSortIcon_cases sample_SessionData "mail"). cbn. discriminate.
  - apply (GetSortIcon_cases default_SessionData "mail"); reflexivity.
  - apply (GetSortIcon_cases sample_SessionData "handshake");
      [reflexivity | cbn; discriminate].
Defined.

Lemma getSessionData_reads_only_witness :
  (getSessionData (returning_request [])).2 = Val sample_SessionData /\
  values (getSessionData (returning_request [])).1 = values (returning_request []) /\
  written (getSessionData (returning_request [])).1 = false /\
  store (getSessionData (returning_request [])).1 = store (returning_request []) /\
  faults (getSessionData (returning_request [])).1 = [] /\
  logs (getSessionData (returning_request [])).1 = [] /\
  self (getSessionData (returning_request [])).1 = server_without_ldap /\
  calls (getSessionData (returning_request [])).1 = [CallGet SessionIdentifier].
Proof.
  apply (getSessionData_reads_only (returning_request []) sample_SessionData).
  reflexivity.
Defined.

Lemma getSessionData_default_stable_witness :
  values (fresh_request [Some "securecookie: the value is too long"])
    !! SessionIdentifier = None /\
  exists d c',
    getSessionData (fresh_request [Some "securecookie: the value is too long"])
      = (c', Val d) /\
    (SortedBy d = "mail" /\ SortDirection d = "asc" /\
     LoggedIn d = false /\ IsAdmin d = false /\
     UID d = "" /\ UserName d = "" /\
     Firstname d = "" /\ Lastname d = "" /\ Email d = "") /\
    values c' !! SessionIdentifier = Some (ASessionData d) /\
    calls c' = [CallGet SessionIdentifier;
                CallSet SessionIdentifier (ASessionData d);
                CallSave] /\
    (Some "securecookie: the value is too long" = None ->
       store c' !! SessionIdentifier = Some (ASessionData d)) /\
    (getSessionData c').2 = Val d /\
    ((∅ : gmap string (Any unit)) !! SessionIdentifier = None ->
       (getSessionData (next_request c')).2 = Val d).
Proof.
  split; [reflexivity|].
  apply (getSessionData_default_stable
           (fresh_request [Some "securecookie: the value is too long"])).
  reflexivity.
Defined.

Lemma getFlashes_one_shot_witness :
  (getFlashes (returning_request [])).2 = Val [sample_FlashData] /\
  (getFlashes (getFlashes (returning_request [])).1).2 = Val [] /\
  values (getFlashes (returning_request [])).1 !! flashKey = None /\
  (next_fault (returning_request []) = None ->
     store (getFlashes (returning_request [])).1 !! flashKey = None /\
     (getFlashes (next_request (getFlashes (returning_request [])).1)).2 = Val []).
Proof.
  split; [reflexivity|].
  apply (getFlashes_one_shot (returning_request []) [sample_FlashData]);
    [reflexivity | discriminate].
Defined.


(** A flash set by [setFlashMessage] is shown once. *)
Example flash_shown_once :
  let c1 := (setFlashMessage "peer created" "success" (fresh_request [])).1 in
  (getFlashes c1).2 = Val [sample_FlashData] /\
  (getFlashes (getFlashes c1).1).2 = Val [] /\
  (getFlashes (next_request (getFlashes c1).1)).2 = Val [].
Proof. cbn. repeat split; reflexivity. Qed.

(** When the write of [getFlashes] fails, the error is only logged: the
    store keeps the flashes, and the next request reads them again. *)
Example getFlashes_failed_write :
  let c' := (getFlashes (returning_request [Some "write failed"])).1 in
  (getFlashes (returning_request [Some "write failed"])).2 = Val [sample_FlashData] /\
  (getFlashes c').2 = Val [] /\
  store c' !! flashKey = Some (ASlice [AFlashData sample_FlashData]) /\
  (getFlashes (next_request c')).2 = Val [sample_FlashData].
Proof. cbn. repeat split; reflexivity. Qed.

(** *** Startup *)

Ltac run_proc :=
  unfold Setup, Run, getExecutableDirectory, logf, emit, modify, deref, boot,
    current, skip, panic, errors_New;
  unfold mbind, mret, Prog_bind, Prog_ret; cbn.

(** [Run] on a server whose configuration and HTTP engine are set: it may
    start the two goroutines, then serves, and returns when serving ends. *)
Lemma Run_events (b : Boot) (cfg : Config) (eng : Engine) :
  config (this b) = Some cfg -> server (this b) = Some eng ->
  let s := this b in
  let addr := ListeningAddress (Core cfg) in
  let r := server_Run_result (env b) addr in
  Run b =
    ({| env := env b; this := this b;
        trace := trace b ++
          (if negb (ldapDisabled s) then [Go Run_func1] else []) ++
          (if negb (ldapDisabled s) && SyncLdapStatus (Core cfg)
           then [Go Run_func2] else []) ++
          [server_Run addr r] ++
          match r with
          | Some e => [Logged (Logf ErrorLevel "Failed to listen and serve on %s: %v" [addr; e])]
          | None => []
          end |}, Val tt).
Proof.
  intros Hc _. run_proc. rewrite Hc. cbn.
  destruct (ldapDisabled (this b)); cbn;
    [|destruct (SyncLdapStatus (Core cfg)); cbn];
    destruct (server_Run_result (env b) (ListeningAddress (Core cfg))); cbn;
    rewrite <- ?app_assoc; reflexivity.
Qed.

(** Case analysis on what a run of [Setup] looks at, innermost scrutinee
    first, evaluating with sharing in between. *)
Ltac destruct_scrutinee x :=
  lazymatch x with
  | context [match ?y with _ => _ end] => destruct_scrutinee y
  | _ => destruct x eqn:?
  end.

Ltac setup_cases :=
  match goal with
  | |- context [Setup (boot ?E ?s)] =>
      let b := fresh "b" in
      let r := fresh "r" in
      let Hrun := fresh "Hrun" in
      destruct (Setup (boot E s)) as [b r] eqn:Hrun;
      lazy in Hrun;
      repeat match type of Hrun with
             | context [match ?x with _ => _ end] =>
                 destruct_scrutinee x; lazy in Hrun
             end;
      injection Hrun as <- <-
  end.

(** C1: when [RestoreWireGuardInterface] returns an error, [Setup] returns an
    error (the one it makes for this step), the restore is the last thing it
    did, and none of the later steps (mail template, HTTP server, routes) was
    performed: [s.mailTpl] and [s.server] are as they were. *)
Theorem Setup_stops_when_restore_fails (E : Env) (s : Server) (e : string) :
  In (RestoreWireGuardInterface (Some e)) (trace (Setup (boot E s)).1) ->
  (Setup (boot E s)).2 = Val (Some "unable to restore WireGuard state") /\
  last (trace (Setup (boot E s)).1) = Some (RestoreWireGuardInterface (Some e)) /\
  Forall (fun ev => is_later_step ev = false) (trace (Setup (boot E s)).1) /\
  mailTpl (this (Setup (boot E s)).1) = mailTpl s /\
  server (this (Setup (boot E s)).1) = server s.
Proof.
  setup_cases; cbn; intros Hin;
    repeat (destruct Hin as [Hin|Hin]; [try discriminate Hin|]);
    try contradiction;
    try (injection Hin as ->);
    (split; [reflexivity|]); (split; [reflexivity|]);
    (split; [repeat constructor|]); split; reflexivity.
Qed.

(** A list with exactly one element satisfying [p] splits around it. *)
Lemma filter_one_split {A} (p : A -> bool) (l : list A) (x : A) :
  List.filter p l = [x] ->
  exists pre post,
    l = pre ++ x :: post /\
    Forall (fun a => p a = false) pre /\
    Forall (fun a => p a = false) post.
Proof.
  induction l as [|a l IH]; cbn; [discriminate|].
  destruct (p a) eqn:Hp.
  - intros [= -> Hrest]. exists [], l. repeat split; [constructor|].
    apply Forall_forall. intros y Hy.
    destruct (p y) eqn:Hpy; [|reflexivity].
    assert (Hin : In y (List.filter p l)) by (apply filter_In; split; [|exact Hpy];
      apply list_elem_of_In; exact Hy).
    rewrite Hrest in Hin. destruct Hin.
  - intros H. destruct (IH H) as (pre & post & -> & Hpre & Hpost).
    exists (a :: pre), post. repeat split; [constructor|]; assumption.
Qed.

(** Whatever the collaborators answer, [Setup] restores the interface at
    most once, and neither starts a goroutine nor serves HTTP. *)
Lemma Setup_always (E : Env) (s : Server) :
  (length (List.filter is_restore (trace (Setup (boot E s)).1)) <= 1)%nat /\
  existsb is_start (trace (Setup (boot E s)).1) = false /\
  env (Setup (boot E s)).1 = E.
Proof.
  setup_cases; cbn; (split; [lia|]); split; reflexivity.
Qed.

(** A successful [Setup] restored the interface exactly once, successfully,
    and left the configuration and the HTTP engine in place. *)
Lemma Setup_success (E : Env) (s : Server) (b1 : Boot) :
  Setup (boot E s) = (b1, Val None) ->
  List.filter is_restore (trace b1) = [RestoreWireGuardInterface None] /\
  config (this b1) = Some (NewConfig_result E) /\
  server (this b1) = Some gin_Engine.
Proof.
  setup_cases; intros [= <-]; repeat split; reflexivity.
Qed.

(** C5: in a startup, where [Run] follows a [Setup] that succeeded, the
    interface is restored exactly once, by [Setup] itself (not by a
    goroutine), and the restore is over before anything is started: every
    goroutine and the HTTP server are started by [Run], after all of [Setup];
    [Run] does not restore. *)
Theorem restore_once_before_Run (E : Env) (s : Server) (b1 : Boot) :
  Setup (boot E s) = (b1, Val None) ->
  exists pre mid later,
    trace b1 = pre ++ RestoreWireGuardInterface None :: mid /\
    trace (Run b1).1 = trace b1 ++ later /\
    (exists addr r, In (server_Run addr r) later) /\
    Forall (fun ev => is_restore ev = false) (pre ++ mid ++ later) /\
    Forall (fun ev => is_start ev = false) (pre ++ RestoreWireGuardInterface None :: mid).
Proof.
  intros Hsetup.
  destruct (Setup_success E s b1 Hsetup) as (Hone & Hcfg & Hsrv).
  destruct (Setup_always E s) as (_ & Hquiet & _).
  rewrite Hsetup in Hquiet. cbn in Hquiet.
  destruct (filter_one_split _ _ _ Hone) as (pre & mid & Htr & Hpre & Hmid).
  rewrite (Run_events b1 _ _ Hcfg Hsrv). cbn.
  eexists pre, mid, _. split; [exact Htr|]. split; [reflexivity|].
  split.
  - eexists _, _. apply in_or_app. right. apply in_or_app. right. left. reflexivity.
  - split.
    + apply Forall_app. split; [exact Hpre|]. apply Forall_app. split; [exact Hmid|].
      destruct (ldapDisabled (this b1)); cbn;
        [|destruct (SyncLdapStatus (Core (NewConfig_result E))); cbn];
        destruct (server_Run_result (env b1) (ListeningAddress (Core (NewConfig_result E))));
        repeat constructor.
    + rewrite <- Htr. apply Forall_forall. intros ev Hev.
      destruct (is_start ev) eqn:Hst; [|reflexivity].
      assert (Hex : existsb is_start (trace b1) = true)
        by (apply existsb_exists; exists ev; split; [apply list_elem_of_In; exact Hev | exact Hst]).
      congruence.
Qed.

(** *** The goroutines *)

Lemma periodic_step_mon (d : Duration) : monotone1 (periodic_step d).
Proof.
  intros t r r' H LE. unfold periodic_step in *.
  destruct H; constructor; auto.
Qed.
#[local] Hint Resolve periodic_step_mon : paco.

Lemma func1_periodic : periodic CacheRefreshDuration (goroutine Run_func1).
Proof.
  unfold periodic. pcofix CIH.
  pfold. unfold periodic_step. cbn. constructor.
  left. pfold. unfold periodic_step. cbn. constructor. intros [e|].
  - left. pfold. unfold periodic_step. cbn. constructor.
    left. pfold. unfold periodic_step. cbn. constructor.
    left. pfold. unfold periodic_step. cbn. constructor.
    right. apply CIH.
  - left. pfold. unfold periodic_step. cbn. constructor.
    left. pfold. unfold periodic_step. cbn. constructor.
    right. apply CIH.
Qed.

Lemma func2_periodic : periodic CacheRefreshDuration (goroutine Run_func2).
Proof.
  unfold periodic. pcofix CIH.
  pfold. unfold periodic_step. cbn. constructor.
  left. pfold. unfold periodic_step. cbn. constructor. intros [e|].
  - left. pfold. unfold periodic_step. cbn. constructor.
    left. pfold. unfold periodic_step. cbn. constructor.
    left. pfold. unfold periodic_step. cbn. constructor.
    right. apply CIH.
  - left. pfold. unfold periodic_step. cbn. constructor.
    left. pfold. unfold periodic_step. cbn. constructor.
    right. apply CIH.
Qed.

(** One step of the fixed point. *)
Lemma periodic_unfold (d : Duration) (t : itree taskE void) :
  periodic d t -> periodicF d (periodic d) (observe t).
Proof.
  intros H. unfold periodic in H. punfold H. unfold periodic_step in H.
  destruct H as [t' H|k H|a b k H|k H|l k H]; constructor;
    try intros r; try specialize (H r); pclearbot; exact H.
Qed.

(** In terms of runs: whatever a periodic tree has done, it is periodic
    still, and each of its sleeps lasted [d]. *)
Lemma periodic_run (d : Duration) (t u : itree taskE void) (acts : list Action) :
  periodic d t -> run t acts u ->
  periodic d u /\ forall d', In (Slept d') acts -> d' = d.
Proof.
  intros Hp Hrun. revert Hp.
  induction Hrun as [t|t t' acts u Ht _ IH|t X e k x acts u Ht _ IH]; intros Hp.
  - split; [exact Hp|]. intros d' [].
  - apply periodic_unfold in Hp. rewrite Ht in Hp. inversion Hp; subst. auto.
  - apply periodic_unfold in Hp. rewrite Ht in Hp.
    dependent destruction Hp; cbn.
    + destruct x. destruct (IH H) as [Hu Hs]. split; [exact Hu|].
      intros d' [[= <-]|Hin]; auto.
    + destruct (IH (H x)) as [Hu Hs]. split; [exact Hu|].
      intros d' [[=]|Hin]; auto.
    + destruct (IH (H x)) as [Hu Hs]. split; [exact Hu|].
      intros d' [[=]|Hin]; auto.
    + destruct x. destruct (IH H) as [Hu Hs]. split; [exact Hu|].
      intros d' [[=]|Hin]; auto.
Qed.

Lemma goroutine_periodic (g : Goroutine) : periodic CacheRefreshDuration (goroutine g).
Proof. destruct g; [apply func1_periodic | apply func2_periodic]. Qed.

(** Any number of turns, whatever each call answers, and the goroutine is
    back at the head of its loop. *)
Lemma goroutine_turns (g : Goroutine) (outcomes : list error) :
  run (goroutine g) (flat_map (turn g) outcomes) (goroutine g).
Proof.
  induction outcomes as [|r outcomes IH]; cbn [flat_map]; [apply run_done|].
  eapply run_app; [|exact IH].
  destruct g; [apply func1_one_turn | apply func2_one_turn].
Qed.

(** C4: a failed refresh does not end the ldap group watcher.  In whatever
    turn of its loop [Update] returns an error [e], that turn sleeps, calls
    [Update], logs the warning and the debug line, and the loop goes on with
    its next turns as before.  The loop never returns, and in every run of it
    every sleep, before and after a failure, lasts [CacheRefreshDuration]
    (five minutes): there is no backoff. *)
Theorem refresh_failure_is_only_logged
  (before : list error) (e : string) (after : list error) :
  run (goroutine Run_func1)
      (flat_map func1_turn before ++
       [Slept CacheRefreshDuration;
        Updated true true (Some e);
        Wrote (Logf WarnLevel "Failed to update ldap group cache: %v" [e]);
        Wrote (Logf DebugLevel "Refreshed LDAP permissions!" [])] ++
       flat_map func1_turn after)
      (goroutine Run_func1) /\
  (forall acts u, run (goroutine Run_func1) acts u ->
     forall d, In (Slept d) acts -> d = CacheRefreshDuration) /\
  periodic CacheRefreshDuration (goroutine Run_func1) /\
  CacheRefreshDuration = 300000000000.
Proof.
  split; [|split; [|split]].
  - eapply run_app; [apply (goroutine_turns Run_func1)|].
    eapply run_app with (acts := func1_turn (Some e));
      [apply func1_one_turn | apply (goroutine_turns Run_func1)].
  - intros acts u Hrun.
    apply (periodic_run _ _ _ _ (goroutine_periodic Run_func1) Hrun).
  - apply func1_periodic.
  - reflexivity.
Qed.

(** C6, as the code has it: [Run] starts the ldap group watcher when LDAP is
    not disabled, and the attribute synchronisation when moreover
    [Core.SyncLdapStatus] is set; it starts nothing else, so two tasks at
    most.  Each task is a loop that sleeps [CacheRefreshDuration] at the head
    of every turn and never returns. *)
Theorem Run_starts_enabled_tasks (E : Env) (s : Server) (cfg : Config) (eng : Engine) :
  config s = Some cfg -> server s = Some eng ->
  started (trace (Run (boot E s)).1) =
    (if negb (ldapDisabled s) then [Run_func1] else []) ++
    (if negb (ldapDisabled s) && SyncLdapStatus (Core cfg) then [Run_func2] else []) /\
  (forall g, periodic CacheRefreshDuration (goroutine g)) /\
  (forall g outcomes, run (goroutine g) (flat_map (turn g) outcomes) (goroutine g)) /\
  (forall g acts u, run (goroutine g) acts u ->
     forall d, In (Slept d) acts -> d = CacheRefreshDuration).
Proof.
  intros Hc Hs. split; [|split; [|split]].
  - rewrite (Run_events (boot E s) cfg eng Hc Hs). cbn.
    destruct (ldapDisabled s); cbn;
      [|destruct (SyncLdapStatus (Core cfg)); cbn];
      destruct (server_Run_result E (ListeningAddress (Core cfg))); reflexivity.
  - apply goroutine_periodic.
  - apply goroutine_turns.
  - intros g acts u Hrun.
    apply (periodic_run _ _ _ _ (goroutine_periodic g) Hrun).
Qed.

Lemma Run_starts_enabled_tasks_witness :
  started (trace (Run (boot (sample_Env None None) (server_with_ldap true))).1)
    = [Run_func1; Run_func2] /\
  (forall g, periodic CacheRefreshDuration (goroutine g)) /\
  (forall g outcomes, run (goroutine g) (flat_map (turn g) outcomes) (goroutine g)) /\
  (forall g acts u, run (goroutine g) acts u ->
     forall d, In (Slept d) acts -> d = CacheRefreshDuration).
Proof.
  apply (Run_starts_enabled_tasks (sample_Env None None) (server_with_ldap true)
           (sample_Config true) gin_Engine); reflexivity.
Defined.

(** C6 does not hold as stated.  A startup on a host whose directory is
    unreachable: [Setup] succeeds with LDAP disabled, and [Run] starts no
    background task at all, not two. *)
Lemma Run_without_ldap_starts_no_task :
  let up := Setup (boot (sample_Env (Some "LDAP Result Code 200: Network Error") None)
                        zero_Server) in
  up.2 = Val None /\
  ldapDisabled (this up.1) = true /\
  started (trace (Run up.1).1) = [] /\
  length (started (trace (Run up.1).1)) <> 2%nat.
Proof. vm_compute. repeat split. discriminate. Qed.

Lemma Setup_stops_when_restore_fails_witness :
  let E := sample_Env None (Some "device or resource busy") in
  In (RestoreWireGuardInterface (Some "device or resource busy"))
     (trace (Setup (boot E zero_Server)).1) /\
  (Setup (boot E zero_Server)).2 = Val (Some "unable to restore WireGuard state") /\
  last (trace (Setup (boot E zero_Server)).1)
    = Some (RestoreWireGuardInterface (Some "device or resource busy")) /\
  Forall (fun ev => is_later_step ev = false) (trace (Setup (boot E zero_Server)).1) /\
  mailTpl (this (Setup (boot E zero_Server)).1) = None /\
  server (this (Setup (boot E zero_Server)).1) = None.
Proof.
  assert (Hin : In (RestoreWireGuardInterface (Some "device or resource busy"))
                  (trace (Setup (boot (sample_Env None (Some "device or resource busy"))
                                      zero_Server)).1))
    by (vm_compute; repeat ((left; reflexivity) || right)).
  split; [exact Hin|].
  exact (Setup_stops_when_restore_fails _ zero_Server _ Hin).
Defined.

Lemma restore_once_before_Run_witness :
  let E := sample_Env None None in
  let b1 := (Setup (boot E zero_Server)).1 in
  Setup (boot E zero_Server) = (b1, Val None) /\
  exists pre mid later,
    trace b1 = pre ++ RestoreWireGuardInterface None :: mid /\
    trace (Run b1).1 = trace b1 ++ later /\
    (exists addr r, In (server_Run addr r) later) /\
    Forall (fun ev => is_restore ev = false) (pre ++ mid ++ later) /\
    Forall (fun ev => is_start ev = false) (pre ++ RestoreWireGuardInterface None :: mid).
Proof.
  split; [vm_compute; reflexivity|].
  apply (restore_once_before_Run (sample_Env None None) zero_Server).
  vm_compute. reflexivity.
Defined.

(** ** More about startup *)

(** Uses the answers found by the case analysis. *)
Ltac use_answers :=
  lazy;
  repeat match goal with
         | Heq : _ = _ |- _ => progress (rewrite Heq)
         end.

(** [getExecutableDirectory] returns. *)
Lemma getExecutableDirectory_returns (E : Env) (s : Server) :
  exists dir, (getExecutableDirectory (boot E s)).2 = Val dir.
Proof.
  unfold getExecutableDirectory, boot, current, logf, emit, skip.
  unfold mbind, mret, Prog_bind, Prog_ret. cbn.
  destruct (executable_dir E) as [dir0 [e|]]; cbn;
    destruct (stat_IsNotExist E (filepath_Join E dir0 "assets")); cbn;
    eexists; reflexivity.
Qed.

(** The result of [Setup], from the answers of its collaborators. *)
Lemma Setup_result (E : Env) (s : Server) (dir : string) :
  (getExecutableDirectory (boot E s)).2 = Val dir ->
  (Setup (boot E s)).2 =
    Val match wg_Init_result E with
        | Some e => Some e
        | None =>
        match NewUserManager_result E
                (filepath_Join E dir (DatabasePath (Core (NewConfig_result E)))) with
        | None => Some "unable to setup user manager"
        | Some _ =>
        match InitFromCurrentInterface_result E with
        | Some _ => Some "unable to initialize user manager"
        | None =>
        match RestoreWireGuardInterface_result E with
        | Some _ => Some "unable to restore WireGuard state"
        | None =>
        match ParseFiles_result E (filepath_Join E dir "/assets/tpl/email.html") with
        | Some _ => Some "unable to pare mail template"
        | None => None
        end end end end end.
Proof.
  setup_cases; use_answers; intros [= <-]; use_answers; reflexivity.
Qed.

(** X1: the first step of [Setup] that fails decides what [Setup] returns.
    The error of [wg.Init] is returned as it is; a missing user manager, a
    failed [InitFromCurrentInterface] and a failed template each give a fixed
    message of their own, and the collaborator's error is dropped.  [Setup]
    returns nil only when all five steps succeeded. *)
Theorem Setup_first_failure_decides (E : Env) (s : Server) (dir : string) :
  (getExecutableDirectory (boot E s)).2 = Val dir ->
  let db := filepath_Join E dir (DatabasePath (Core (NewConfig_result E))) in
  let tpl := filepath_Join E dir "/assets/tpl/email.html" in
  (forall e, wg_Init_result E = Some e -> (Setup (boot E s)).2 = Val (Some e)) /\
  (wg_Init_result E = None -> NewUserManager_result E db = None ->
     (Setup (boot E s)).2 = Val (Some "unable to setup user manager")) /\
  (forall e, wg_Init_result E = None -> NewUserManager_result E db <> None ->
     InitFromCurrentInterface_result E = Some e ->
     (Setup (boot E s)).2 = Val (Some "unable to initialize user manager")) /\
  (forall e, wg_Init_result E = None -> NewUserManager_result E db <> None ->
     InitFromCurrentInterface_result E = None ->
     RestoreWireGuardInterface_result E = None ->
     ParseFiles_result E tpl = Some e ->
     (Setup (boot E s)).2 = Val (Some "unable to pare mail template")) /\
  ((Setup (boot E s)).2 = Val None ->
     wg_Init_result E = None /\ NewUserManager_result E db <> None /\
     InitFromCurrentInterface_result E = None /\
     RestoreWireGuardInterface_result E = None /\
     ParseFiles_result E tpl = None).
Proof.
  intros Hdir db tpl. rewrite (Setup_result E s dir Hdir). fold db tpl.
  destruct (wg_Init_result E) as [e1|];
    destruct (NewUserManager_result E db) as [um|];
    destruct (InitFromCurrentInterface_result E) as [e3|];
    destruct (RestoreWireGuardInterface_result E) as [e4|];
    destruct (ParseFiles_result E tpl) as [e5|];
    repeat split; intros; try congruence;
    repeat match goal with
           | H : _ /\ _ |- _ => destruct H
           end; try congruence.
Qed.

Lemma Setup_first_failure_decides_witness :
  let E := sample_Env None None in
  (getExecutableDirectory (boot E zero_Server)).2 = Val "/opt/wg-portal" /\
  (Setup (boot E zero_Server)).2 = Val None /\
  (wg_Init_result E = None /\
   NewUserManager_result E
     (filepath_Join E "/opt/wg-portal" (DatabasePath (Core (NewConfig_result E)))) <> None /\
   InitFromCurrentInterface_result E = None /\
   RestoreWireGuardInterface_result E = None /\
   ParseFiles_result E (filepath_Join E "/opt/wg-portal" "/assets/tpl/email.html") = None).
Proof.
  assert (Hdir : (getExecutableDirectory (boot (sample_Env None None) zero_Server)).2
                 = Val "/opt/wg-portal") by (vm_compute; reflexivity).
  assert (Hok : (Setup (boot (sample_Env None None) zero_Server)).2 = Val None)
    by (vm_compute; reflexivity).
  split; [exact Hdir|]. split; [exact Hok|].
  exact (proj2 (proj2 (proj2 (proj2
           (Setup_first_failure_decides (sample_Env None None) zero_Server
              "/opt/wg-portal" Hdir)))) Hok).
Defined.

(** What [Setup] does about LDAP, on every path. *)
Lemma Setup_ldap (E : Env) (s : Server) :
  ldapDisabled (this (Setup (boot E s)).1) =
    match LastError (NewUserCache_result E) with
    | Some _ => true
    | None => ldapDisabled s
    end /\
  ldapCacheUpdater (this (Setup (boot E s)).1) = Some (NewUserCache_result E) /\
  (In (Logged (Logf WarnLevel "LDAP features disabled!" []))
      (trace (Setup (boot E s)).1) <->
   LastError (NewUserCache_result E) <> None).
Proof.
  setup_cases; use_answers; (split; [reflexivity|]); (split; [reflexivity|]);
    (split; [intros Hin; first [discriminate
                               | repeat (destruct Hin as [Hin|Hin];
                                         [try discriminate Hin|]); contradiction]
            | intros Hne; first [congruence
                                | repeat ((left; reflexivity) || right)]]).
Qed.

Lemma getExecutableDirectory_with_ldap (E : Env) (uc : UserCache) (s : Server) :
  (getExecutableDirectory (boot (with_ldap E uc) s)).2 =
  (getExecutableDirectory (boot E s)).2.
Proof.
  unfold getExecutableDirectory, boot, current, logf, emit, skip, with_ldap.
  unfold mbind, mret, Prog_bind, Prog_ret. cbn.
  destruct (executable_dir E) as [dir0 [e|]]; cbn;
    destruct (stat_IsNotExist E (filepath_Join E dir0 "assets")); reflexivity.
Qed.

(** X2: an LDAP failure is not fatal to [Setup].  What [ldap.NewUserCache]
    reports has no influence on the result of [Setup]; it only sets
    [s.ldapDisabled] (which [Setup] never resets) and logs the warning, and
    the cache updater is kept in either case. *)
Theorem Setup_ldap_failure_is_not_fatal (E : Env) (s : Server) (uc : UserCache) :
  (Setup (boot (with_ldap E uc) s)).2 = (Setup (boot E s)).2 /\
  ldapDisabled (this (Setup (boot E s)).1) =
    match LastError (NewUserCache_result E) with
    | Some _ => true
    | None => ldapDisabled s
    end /\
  ldapCacheUpdater (this (Setup (boot E s)).1) = Some (NewUserCache_result E) /\
  (In (Logged (Logf WarnLevel "LDAP features disabled!" []))
      (trace (Setup (boot E s)).1) <->
   LastError (NewUserCache_result E) <> None).
Proof.
  split; [|apply Setup_ldap].
  destruct (getExecutableDirectory_returns E s) as [dir Hdir].
  assert (Hdir' : (getExecutableDirectory (boot (with_ldap E uc) s)).2 = Val dir)
    by (rewrite getExecutableDirectory_with_ldap; exact Hdir).
  rewrite (Setup_result _ s dir Hdir'), (Setup_result E s dir Hdir). reflexivity.
Qed.

(** X3: [Setup] attempts the restore exactly when [wg.Init], the user
    manager and [InitFromCurrentInterface] succeeded before it; the result
    recorded is the one the restore gave. *)
Theorem Setup_restore_attempted_iff (E : Env) (s : Server) (dir : string) :
  (getExecutableDirectory (boot E s)).2 = Val dir ->
  forall r,
    In (RestoreWireGuardInterface r) (trace (Setup (boot E s)).1) <->
    wg_Init_result E = None /\
    NewUserManager_result E
      (filepath_Join E dir (DatabasePath (Core (NewConfig_result E)))) <> None /\
    InitFromCurrentInterface_result E = None /\
    r = RestoreWireGuardInterface_result E.
Proof.
  setup_cases; use_answers; intros [= <-]; use_answers; intros r0;
    (split;
     [ intros Hin;
       repeat (destruct Hin as [Hin|Hin]; [try discriminate Hin|]);
       try contradiction;
       injection Hin as <-; repeat split; congruence
     | intros (H1 & H2 & H3 & ->);
       first [ discriminate H1 | discriminate H3 | congruence
             | repeat ((left; reflexivity) || right) ] ]).
Qed.

Lemma Setup_restore_attempted_iff_witness :
  let E := sample_Env None (Some "device or resource busy") in
  (getExecutableDirectory (boot E zero_Server)).2 = Val "/opt/wg-portal" /\
  forall r,
    In (RestoreWireGuardInterface r) (trace (Setup (boot E zero_Server)).1) <->
    wg_Init_result E = None /\
    NewUserManager_result E
      (filepath_Join E "/opt/wg-portal" (DatabasePath (Core (NewConfig_result E)))) <> None /\
    InitFromCurrentInterface_result E = None /\
    r = RestoreWireGuardInterface_result E.
Proof.
  split; [vm_compute; reflexivity|].
  apply (Setup_restore_attempted_iff
           (sample_Env None (Some "device or resource busy")) zero_Server "/opt/wg-portal").
  vm_compute. reflexivity.
Defined.

(** X4: the HTTP server is built only when everything before it succeeded.
    When [Setup] returns an error, whichever step failed, [s.server] is as it
    was and no gin call, static route or [SetupRoutes] has been made; when it
    returns nil the engine is in place and the routes are set up. *)
Theorem http_server_built_only_on_success (E : Env) (s : Server) :
  match (Setup (boot E s)).2 with
  | Val None =>
      server (this (Setup (boot E s)).1) = Some gin_Engine /\
      In SetupRoutes (trace (Setup (boot E s)).1)
  | _ =>
      server (this (Setup (boot E s)).1) = server s /\
      Forall (fun ev => is_http_step ev = false) (trace (Setup (boot E s)).1)
  end.
Proof.
  setup_cases; cbn; split;
    first [ reflexivity
          | solve [repeat ((left; reflexivity) || right)]
          | solve [repeat constructor] ].
Qed.

(** After a successful [Setup] no pointer of the server is nil. *)
Lemma Setup_success_fields (E : Env) (s : Server) (b1 : Boot) :
  Setup (boot E s) = (b1, Val None) ->
  env b1 = E /\
  config (this b1) = Some (NewConfig_result E) /\
  server (this b1) = Some gin_Engine /\
  is_Some (users (this b1)) /\
  is_Some (mailTpl (this b1)) /\
  wg (this b1) = Some wireguard_Manager /\
  ldapAuth (this b1) = Some ldap_Authentication /\
  ldapUsers (this b1) = Some ldap_SynchronizedUserCacheHolder /\
  ldapCacheUpdater (this b1) = Some (NewUserCache_result E) /\
  last (trace b1) = Some (Logged (Logf InfoLevel "Setup of service completed!" [])).
Proof.
  setup_cases; intros [= <-]; cbn; repeat split; try reflexivity; eexists; reflexivity.
Qed.

(** X6: a successful [Setup] leaves a server on which [Run] cannot fail: every
    component is in place (no field of [s] is nil), the last thing [Setup]
    did was to report completion, and [Run] on this server returns without
    a panic. *)
Theorem Run_after_Setup_does_not_panic (E : Env) (s : Server) (b1 : Boot) :
  Setup (boot E s) = (b1, Val None) ->
  (is_Some (config (this b1)) /\ is_Some (server (this b1)) /\
   is_Some (users (this b1)) /\ is_Some (mailTpl (this b1)) /\
   is_Some (wg (this b1)) /\ is_Some (ldapAuth (this b1)) /\
   is_Some (ldapUsers (this b1)) /\ is_Some (ldapCacheUpdater (this b1))) /\
  last (trace b1) = Some (Logged (Logf InfoLevel "Setup of service completed!" [])) /\
  (Run b1).2 = Val tt /\
  this (Run b1).1 = this b1.
Proof.
  intros Hsetup.
  destruct (Setup_success_fields E s b1 Hsetup)
    as (_ & Hc & Hs & Hu & Hm & Hw & Ha & Hl & Hcu & Hlast).
  rewrite (Run_events b1 _ _ Hc Hs). cbn.
  rewrite Hc, Hs, Hw, Ha, Hl, Hcu. repeat split; eauto.
Qed.

Lemma Run_after_Setup_does_not_panic_witness :
  Setup (boot (sample_Env None None) zero_Server) = (sample_startup, Val None) /\
  (is_Some (config (this sample_startup)) /\ is_Some (server (this sample_startup)) /\
   is_Some (users (this sample_startup)) /\ is_Some (mailTpl (this sample_startup)) /\
   is_Some (wg (this sample_startup)) /\ is_Some (ldapAuth (this sample_startup)) /\
   is_Some (ldapUsers (this sample_startup)) /\
   is_Some (ldapCacheUpdater (this sample_startup))) /\
  last (trace sample_startup) = Some (Logged (Logf InfoLevel "Setup of service completed!" [])) /\
  (Run sample_startup).2 = Val tt /\
  this (Run sample_startup).1 = this sample_startup.
Proof.
  split; [vm_compute; reflexivity|].
  apply (Run_after_Setup_does_not_panic (sample_Env None None) zero_Server).
  vm_compute. reflexivity.
Defined.

(** X7: [Run] on a server without configuration (one on which [Setup] did
    not run) panics on the nil pointer and never serves; when LDAP is not
    disabled it has started the first goroutine by then. *)
Theorem Run_without_config_panics (E : Env) (s : Server) :
  config s = None ->
  (Run (boot E s)).2 = Panic "invalid memory address or nil pointer dereference" /\
  existsb is_serve (trace (Run (boot E s)).1) = false /\
  started (trace (Run (boot E s)).1) = (if ldapDisabled s then [] else [Run_func1]).
Proof.
  intros Hc. run_proc. rewrite Hc.
  destruct (ldapDisabled s); cbn; auto.
Qed.

Lemma Run_without_config_panics_witness :
  config zero_Server = None /\
  (Run (boot (sample_Env None None) zero_Server)).2
    = Panic "invalid memory address or nil pointer dereference" /\
  existsb is_serve (trace (Run (boot (sample_Env None None) zero_Server)).1) = false /\
  started (trace (Run (boot (sample_Env None None) zero_Server)).1) = [Run_func1].
Proof.
  split; [reflexivity|].
  apply (Run_without_config_panics (sample_Env None None) zero_Server). reflexivity.
Defined.

(** X8: [Run] starts its goroutines first and serves last, on the configured
    [ListeningAddress]; when serving ends with an error, the error is logged
    with the address and [Run] returns. *)
Theorem Run_serves_after_starting_tasks (E : Env) (s : Server) (cfg : Config) (eng : Engine) :
  config s = Some cfg -> server s = Some eng ->
  let addr := ListeningAddress (Core cfg) in
  (Run (boot E s)).2 = Val tt /\
  trace (Run (boot E s)).1 =
    map Go (started (trace (Run (boot E s)).1)) ++
    server_Run addr (server_Run_result E addr) ::
    match server_Run_result E addr with
    | Some e => [Logged (Logf ErrorLevel "Failed to listen and serve on %s: %v" [addr; e])]
    | None => []
    end.
Proof.
  intros Hc Hs addr. rewrite (Run_events (boot E s) cfg eng Hc Hs). cbn. fold addr.
  destruct (ldapDisabled s); cbn;
    [|destruct (SyncLdapStatus (Core cfg)); cbn];
    destruct (server_Run_result E addr); cbn; auto.
Qed.

Lemma Run_serves_after_starting_tasks_witness :
  let E := sample_Env None None in
  let s := server_with_ldap true in
  (Run (boot E s)).2 = Val tt /\
  trace (Run (boot E s)).1 =
    map Go (started (trace (Run (boot E s)).1)) ++
    server_Run ":8123" (server_Run_result E ":8123") ::
    match server_Run_result E ":8123" with
    | Some e => [Logged (Logf ErrorLevel "Failed to listen and serve on %s: %v" [":8123"; e])]
    | None => []
    end.
Proof.
  apply (Run_serves_after_starting_tasks (sample_Env None None) (server_with_ldap true)
           (sample_Config true) gin_Engine); reflexivity.
Defined.

(** X9: after a successful [Setup], [getStaticData] gives the configured
    title and company name, the fixed logo, the year it was given, and an
    [LdapDisabled] that tells whether LDAP reported an error during [Setup];
    it changes nothing.  On a server without configuration it panics. *)
Theorem getStaticData_after_Setup (E : Env) (s : Server) (b1 : Boot) (year : Z) :
  Setup (boot E s) = (b1, Val None) ->
  getStaticData year b1 =
    (b1, Val {| WebsiteTitle := Title (Core (NewConfig_result E));
                WebsiteLogo := "/img/header-logo.png";
                StaticData_CompanyName := CompanyName (Core (NewConfig_result E));
                Year := year;
                LdapDisabled := match LastError (NewUserCache_result E) with
                                | Some _ => true
                                | None => ldapDisabled s
                                end |}) /\
  (forall b, config (this b) = None ->
     getStaticData year b = (b, Panic "invalid memory address or nil pointer dereference")).
Proof.
  intros Hsetup. split.
  - destruct (Setup_success_fields E s b1 Hsetup) as (_ & Hc & _).
    destruct (Setup_ldap E s) as (Hl & _). rewrite Hsetup in Hl. cbn in Hl.
    unfold getStaticData, current, deref. unfold mbind, mret, Prog_bind, Prog_ret. cbn.
    rewrite Hc. cbn. rewrite Hl. reflexivity.
  - intros b Hb.
    unfold getStaticData, current, deref, panic. unfold mbind, mret, Prog_bind, Prog_ret. cbn.
    rewrite Hb. reflexivity.
Qed.

Lemma getStaticData_after_Setup_witness :
  Setup (boot (sample_Env None None) zero_Server) = (sample_startup, Val None) /\
  getStaticData 2020 sample_startup =
    (sample_startup,
     Val {| WebsiteTitle := "WireGuard VPN";
            WebsiteLogo := "/img/header-logo.png";
            StaticData_CompanyName := "WireGuard Portal";
            Year := 2020;
            LdapDisabled := false |}) /\
  (forall b, config (this b) = None ->
     getStaticData 2020 b = (b, Panic "invalid memory address or nil pointer dereference")).
Proof.
  split; [vm_compute; reflexivity|].
  apply (getStaticData_after_Setup (sample_Env None None) zero_Server sample_startup 2020).
  vm_compute. reflexivity.
Defined.

(** ** More about the goroutines *)

Section RunInversion.
Context {R : Type}.
Implicit Types (t u : itree taskE R) (acts : list Action).

Lemma run_inv_tau t t' acts u :
  observe t = TauF t' -> run t acts u ->
  (acts = [] /\ u = t) \/ run t' acts u.
Proof.
  intros Ht Hrun. destruct Hrun as [t|t t1 acts u Ht1 Hrun|t X e k x acts u Ht1 Hrun].
  - left. auto.
  - right. rewrite Ht in Ht1. injection Ht1 as <-. exact Hrun.
  - rewrite Ht in Ht1. discriminate.
Qed.

Lemma run_inv_vis t X (e : taskE X) k acts u :
  observe t = VisF e k -> run t acts u ->
  (acts = [] /\ u = t) \/
  exists x acts', acts = action e x :: acts' /\ run (k x) acts' u.
Proof.
  intros Ht Hrun. destruct Hrun as [t|t t1 acts u Ht1 Hrun|t X1 e1 k1 x acts u Ht1 Hrun].
  - left. auto.
  - rewrite Ht in Ht1. discriminate.
  - right. rewrite Ht in Ht1. dependent destruction Ht1.
    exists x, acts. auto.
Qed.
End RunInversion.

Ltac peel H :=
  first [ eapply run_inv_vis in H; [|cbn; reflexivity]
        | eapply run_inv_tau in H; [|cbn; reflexivity] ].

Ltac stops_within r :=
  left; exists r; split; [eexists; reflexivity | discriminate].

Lemma func1_run_one_turn (acts : list Action) (u : itree taskE void) :
  run (goroutine Run_func1) acts u ->
  (exists r, acts `prefix_of` func1_turn r /\ acts <> func1_turn r) \/
  (exists r rest, acts = func1_turn r ++ rest /\
                  (rest = [] \/ run (goroutine Run_func1) rest u)).
Proof.
  intros H.
  peel H. destruct H as [[-> _]|([] & acts1 & -> & H)]; [stops_within (@None string)|].
  peel H. destruct H as [[-> _]|(r & acts2 & -> & H)]; [stops_within (@None string)|].
  destruct r as [e|].
  - peel H. destruct H as [[-> _]|([] & acts3 & -> & H)]; [stops_within (Some e)|].
    peel H. destruct H as [[-> _]|([] & acts4 & -> & H)]; [stops_within (Some e)|].
    right. exists (Some e), acts4. split; [reflexivity|].
    peel H. destruct H as [[-> _]|H]; auto.
  - peel H. destruct H as [[-> _]|([] & acts3 & -> & H)]; [stops_within (@None string)|].
    right. exists None, acts3. split; [reflexivity|].
    peel H. destruct H as [[-> _]|H]; auto.
Qed.

Lemma func2_run_one_turn (acts : list Action) (u : itree taskE void) :
  run (goroutine Run_func2) acts u ->
  (exists r, acts `prefix_of` func2_turn r /\ acts <> func2_turn r) \/
  (exists r rest, acts = func2_turn r ++ rest /\
                  (rest = [] \/ run (goroutine Run_func2) rest u)).
Proof.
  intros H.
  peel H. destruct H as [[-> _]|([] & acts1 & -> & H)]; [stops_within (@None string)|].
  peel H. destruct H as [[-> _]|(r & acts2 & -> & H)]; [stops_within (@None string)|].
  destruct r as [e|].
  - peel H. destruct H as [[-> _]|([] & acts3 & -> & H)]; [stops_within (Some e)|].
    peel H. destruct H as [[-> _]|([] & acts4 & -> & H)]; [stops_within (Some e)|].
    right. exists (Some e), acts4. split; [reflexivity|].
    peel H. destruct H as [[-> _]|H]; auto.
  - peel H. destruct H as [[-> _]|([] & acts3 & -> & H)]; [stops_within (@None string)|].
    right. exists None, acts3. split; [reflexivity|].
    peel H. destruct H as [[-> _]|H]; auto.
Qed.

Lemma turn_nonempty (g : Goroutine) (r : error) : (0 < length (turn g r))%nat.
Proof. destruct g, r; cbn; lia. Qed.

(** Every run of a goroutine from the head of its loop: complete turns, then
    the beginning of one more. *)
Lemma goroutine_run_shape (g : Goroutine) (acts : list Action) (u : itree taskE void) :
  run (goroutine g) acts u ->
  exists outcomes partial r,
    acts = flat_map (turn g) outcomes ++ partial /\
    partial `prefix_of` turn g r /\ partial <> turn g r.
Proof.
  remember (length acts) as n eqn:Hn. revert acts Hn.
  induction n as [n IH] using lt_wf_ind. intros acts Hn Hrun.
  assert (Hone :
    (exists r, acts `prefix_of` turn g r /\ acts <> turn g r) \/
    (exists r rest, acts = turn g r ++ rest /\
                    (rest = [] \/ run (goroutine g) rest u)))
    by (destruct g; [apply func1_run_one_turn | apply func2_run_one_turn]; exact Hrun).
  destruct Hone as [(r & Hpre & Hne)|(r & rest & -> & Hrest)].
  - exists [], acts, r. auto.
  - destruct Hrest as [->|Hrest].
    + exists [r], [], None. cbn. split; [rewrite !app_nil_r; reflexivity|].
      split; [apply prefix_nil|]. destruct g; discriminate.
    + pose proof (turn_nonempty g r) as Hpos.
      destruct (IH (length rest)) with (acts := rest)
        as (outcomes & partial & r' & -> & Hpre & Hne); auto.
      { subst n. rewrite length_app. lia. }
      exists (r :: outcomes), partial, r'. cbn. rewrite <- app_assoc. auto.
Qed.

Lemma turn_own (g : Goroutine) (r : error) : Forall (own_action g) (turn g r).
Proof.
  destruct g, r; cbn; repeat (constructor; [cbn; auto|]); constructor.
Qed.

Lemma prefix_is_take {A} (l1 l2 : list A) :
  l1 `prefix_of` l2 -> l1 = take (length l1) l2.
Proof. intros [k ->]. rewrite take_app_length. reflexivity. Qed.

Lemma turn_counts (g : Goroutine) (r : error) :
  length (List.filter is_sleep (turn g r)) = 1%nat /\
  length (List.filter is_call (turn g r)) = 1%nat.
Proof. destruct g, r; cbn; auto. Qed.

Lemma turns_counts (g : Goroutine) (outcomes : list error) :
  length (List.filter is_sleep (flat_map (turn g) outcomes)) = length outcomes /\
  length (List.filter is_call (flat_map (turn g) outcomes)) = length outcomes.
Proof.
  induction outcomes as [|r outcomes [IHs IHc]]; cbn [flat_map]; [auto|].
  rewrite !List.filter_app, !length_app, IHs, IHc.
  destruct (turn_counts g r) as [-> ->]. auto.
Qed.

Lemma partial_turn_counts (g : Goroutine) (r : error) (partial : list Action) :
  partial `prefix_of` turn g r ->
  (length (List.filter is_call partial) <= length (List.filter is_sleep partial)
   <= S (length (List.filter is_call partial)))%nat.
Proof.
  intros Hpre. rewrite (prefix_is_take _ _ Hpre).
  destruct g, r; cbn;
    destruct (length partial) as [|[|[|[|[|n]]]]]; cbn; lia.
Qed.

(** X10: the goroutines do nothing but their turns.  Every run of a goroutine
    from the head of its loop, whatever its calls answer, consists of
    complete turns (sleep, call, a warning exactly when the call failed, the
    debug line) followed by the beginning of one more turn. *)
Theorem goroutine_runs_are_turns
  (g : Goroutine) (acts : list Action) (u : itree taskE void) :
  run (goroutine g) acts u ->
  exists outcomes partial r,
    acts = flat_map (turn g) outcomes ++ partial /\
    partial `prefix_of` turn g r /\ partial <> turn g r.
Proof. apply goroutine_run_shape. Qed.

Lemma goroutine_runs_are_turns_witness :
  run (goroutine Run_func1)
      (func1_turn (Some "connection refused") ++ func1_turn None) (goroutine Run_func1) /\
  exists outcomes partial r,
    func1_turn (Some "connection refused") ++ func1_turn None
      = flat_map (turn Run_func1) outcomes ++ partial /\
    partial `prefix_of` turn Run_func1 r /\ partial <> turn Run_func1 r.
Proof.
  assert (H : run (goroutine Run_func1)
                (func1_turn (Some "connection refused") ++ func1_turn None)
                (goroutine Run_func1)).
  { eapply run_app; apply func1_one_turn. }
  split; [exact H|].
  exact (goroutine_runs_are_turns Run_func1 _ _ H).
Defined.

(** X11: a goroutine only does its own work.  In every run the ldap group
    watcher only sleeps [CacheRefreshDuration], calls [Update(true, true)]
    and logs at warning or debug level, and never synchronises attributes;
    the attribute synchroniser only sleeps [CacheRefreshDuration], calls
    [SyncLdapAttributesWithWireGuard] and logs at warning or debug level, and
    never touches the cache updater. *)
Theorem goroutine_does_only_its_own_work
  (g : Goroutine) (acts : list Action) (u : itree taskE void) :
  run (goroutine g) acts u -> Forall (own_action g) acts.
Proof.
  intros Hrun.
  destruct (goroutine_run_shape g acts u Hrun) as (outcomes & partial & r & -> & [k Hk] & _).
  clear Hrun. apply Forall_app. split.
  - induction outcomes as [|r' outcomes IH]; cbn [flat_map]; [constructor|].
    apply Forall_app. split; [apply turn_own | exact IH].
  - pose proof (turn_own g r) as Hown. rewrite Hk in Hown.
    apply Forall_app in Hown. apply Hown.
Qed.

Lemma goroutine_does_only_its_own_work_witness :
  run (goroutine Run_func2) (func2_turn (Some "no such object")) (goroutine Run_func2) /\
  Forall (own_action Run_func2) (func2_turn (Some "no such object")).
Proof.
  assert (H : run (goroutine Run_func2) (func2_turn (Some "no such object"))
                (goroutine Run_func2)) by apply func2_one_turn.
  split; [exact H|].
  exact (goroutine_does_only_its_own_work Run_func2 _ _ H).
Defined.

(** X12: a goroutine sleeps before each call.  In every run from the head of
    the loop the first action is the sleep of [CacheRefreshDuration], and at
    any moment the number of calls made is the number of sleeps or one less:
    there is never a second call without a sleep in between. *)
Theorem goroutine_sleeps_before_each_call
  (g : Goroutine) (acts : list Action) (u : itree taskE void) :
  run (goroutine g) acts u ->
  (forall a rest, acts = a :: rest -> a = Slept CacheRefreshDuration) /\
  (length (List.filter is_call acts) <= length (List.filter is_sleep acts)
   <= S (length (List.filter is_call acts)))%nat.
Proof.
  intros Hrun.
  destruct (goroutine_run_shape g acts u Hrun) as (outcomes & partial & r & -> & Hpre & _).
  split.
  - intros a rest Heq. destruct outcomes as [|r' outcomes].
    + cbn in Heq. subst partial. destruct Hpre as [k Hk].
      destruct g, r; cbn in Hk; congruence.
    + cbn [flat_map] in Heq. destruct g, r'; cbn in Heq; congruence.
  - rewrite !List.filter_app, !length_app.
    destruct (turns_counts g outcomes) as [-> ->].
    pose proof (partial_turn_counts g r partial Hpre). lia.
Qed.

Lemma goroutine_sleeps_before_each_call_witness :
  let acts := func1_turn None ++ func1_turn (Some "timeout") in
  run (goroutine Run_func1) acts (goroutine Run_func1) /\
  (forall a rest, acts = a :: rest -> a = Slept CacheRefreshDuration) /\
  (length (List.filter is_call acts) <= length (List.filter is_sleep acts)
   <= S (length (List.filter is_call acts)))%nat.
Proof.
  assert (H : run (goroutine Run_func1) (func1_turn None ++ func1_turn (Some "timeout"))
                (goroutine Run_func1)).
  { eapply run_app; apply func1_one_turn. }
  split; [exact H|].
  exact (goroutine_sleeps_before_each_call Run_func1 _ _ H).
Defined.

(** ** More about the sessions *)

Lemma keys_differ : SessionIdentifier <> flashKey.
Proof. discriminate. Qed.

Section MoreSessionFacts.
Context {FormValue : Type}.
Context `{!Gob FormValue}.
Implicit Types (c : Context FormValue) (d data : SessionData FormValue)
  (m : gmap string (Any FormValue)) (fs : list FlashData).

Lemma convert_flashes_map fs c :
  convert_flashes (FormValue := FormValue) (map AFlashData fs) c = (c, Val fs).
Proof.
  induction fs as [|f fs IH]; [reflexivity|].
  cbn. unfold mbind, mret, Prog_bind, Prog_ret in *. cbn. rewrite IH. reflexivity.
Qed.

Lemma setFlashMessage_run c (message typ : string) (l : list (Any FormValue)) :
  values c !! flashKey = Some (ASlice l) \/ (values c !! flashKey = None /\ l = []) ->
  exists c',
    setFlashMessage message typ c = (c', Val tt) /\
    self c' = self c /\
    values c' =
      <[flashKey := ASlice (l ++ [AFlashData {| HasAlert := false;
                                                Message := message;
                                                Type_ := typ |}])]> (values c) /\
    store c' = match next_fault c with
               | None => gob_Any <$> values c'
               | Some _ => store c
               end.
Proof.
  intros H. run_handler.
  destruct H as [H|[H ->]]; rewrite H; cbn;
    destruct (faults c) as [|[e|] rest]; cbn;
    eexists; repeat split; reflexivity.
Qed.

Lemma setFlashMessage_returns c (message typ : string) :
  (setFlashMessage message typ c).2 = Val tt ->
  exists l, values c !! flashKey = Some (ASlice l) \/ (values c !! flashKey = None /\ l = []).
Proof.
  run_handler.
  destruct (values c !! flashKey) as [[d|f|l]|] eqn:Hv; cbn; try discriminate; intros _.
  - exists l. auto.
  - exists []. auto.
Qed.

Lemma getFlashes_pending c fs :
  pending (values c) fs ->
  exists c',
    getFlashes c = (c', Val fs) /\
    self c' = self c /\
    values c' = delete flashKey (values c) /\
    store c' = match next_fault c with
               | None => gob_Any <$> values c'
               | Some _ => store c
               end.
Proof.
  intros H. run_handler.
  destruct H as [H|[H ->]]; rewrite H; cbn.
  - destruct (faults c) as [|[e|] rest]; cbn; rewrite convert_flashes_map;
      eexists; repeat split; reflexivity.
  - rewrite (delete_id (values c) flashKey H).
    destruct (faults c) as [|[e|] rest]; cbn; eexists; repeat split; reflexivity.
Qed.

Lemma well_typed_pending m : well_typed_values m -> exists fs, pending m fs.
Proof.
  intros [_ Hf]. destruct (m !! flashKey) as [v|] eqn:Hv.
  - destruct (Hf v eq_refl) as [fs ->]. exists fs. left. exact Hv.
  - exists []. right. auto.
Qed.

Lemma well_typed_insert_session m d :
  well_typed_values m -> well_typed_values (<[SessionIdentifier := ASessionData d]> m).
Proof.
  intros [Hs Hf]. split; intros v.
  - rewrite lookup_insert_eq. intros [= <-]. eauto.
  - rewrite lookup_insert_ne by apply keys_differ. apply Hf.
Qed.

Lemma well_typed_insert_flashes m fs :
  well_typed_values m -> well_typed_values (<[flashKey := ASlice (map AFlashData fs)]> m).
Proof.
  intros [Hs Hf]. split; intros v.
  - rewrite lookup_insert_ne by (intros Heq; apply keys_differ; congruence). apply Hs.
  - rewrite lookup_insert_eq. intros [= <-]. eauto.
Qed.

Lemma well_typed_delete m (key : string) :
  well_typed_values m -> well_typed_values (delete key m).
Proof.
  intros [Hs Hf]. split; intros v Hv; apply lookup_delete_Some in Hv as [_ Hv]; auto.
Qed.

Lemma gob_flashes fs :
  map gob_Any (map (AFlashData (FormValue := FormValue)) fs) = map AFlashData fs.
Proof. induction fs as [|f fs IH]; cbn; [|rewrite IH]; reflexivity. Qed.

Lemma well_typed_gob m : well_typed_values m -> well_typed_values (gob_Any <$> m).
Proof.
  intros [Hs Hf]. split; intros v; rewrite lookup_gob.
  - destruct (m !! SessionIdentifier) as [v0|] eqn:Hl; cbn; intros [= <-].
    destruct (Hs v0 eq_refl) as [d ->]. eexists. reflexivity.
  - destruct (m !! flashKey) as [v0|] eqn:Hl; cbn; intros [= <-].
    destruct (Hf v0 eq_refl) as [fs ->]. exists fs. cbn. rewrite gob_flashes. reflexivity.
Qed.

(** Each use of a session keeps it well typed, and does not panic. *)
Lemma use_keeps_well_typed (u : Use FormValue) c :
  well_typed c -> exists c', use u c = (c', Val tt) /\ well_typed c'.
Proof.
  intros [Hv Hs]. destruct u as [| |data| |message typ|]; cbn [use].
  - destruct (values c !! SessionIdentifier) as [v|] eqn:Hl.
    + destruct (proj1 Hv v Hl) as [d ->].
      unfold mbind, Prog_bind. rewrite (getSessionData_existing c d Hl).
      eexists. split; [reflexivity|]. split; assumption.
    + destruct (getSessionData_missing c Hl)
        as (d & c' & Hrun & _ & _ & Hvalues & Hstore & _).
      unfold mbind, Prog_bind. rewrite Hrun. exists c'. split; [reflexivity|].
      assert (Hv' : well_typed_values (values c'))
        by (rewrite Hvalues; apply well_typed_insert_session; exact Hv).
      split; [exact Hv'|]. rewrite Hstore. destruct (next_fault c); [assumption | apply well_typed_gob; assumption].
  - destruct (well_typed_pending _ Hv) as [fs Hp].
    destruct (getFlashes_pending c fs Hp) as (c' & Hrun & _ & Hvalues & Hstore).
    unfold mbind, Prog_bind. rewrite Hrun. exists c'. split; [reflexivity|].
    assert (Hv' : well_typed_values (values c'))
      by (rewrite Hvalues; apply well_typed_delete; exact Hv).
    split; [exact Hv'|]. rewrite Hstore. destruct (next_fault c); [assumption | apply well_typed_gob; assumption].
  - destruct (updateSessionData_run c data) as (c' & Hrun & _ & Hvalues & Hstore & _).
    unfold mbind, Prog_bind. rewrite Hrun. exists c'. split; [reflexivity|].
    assert (Hv' : well_typed_values (values c'))
      by (rewrite Hvalues; apply well_typed_insert_session; exact Hv).
    split; [exact Hv'|]. rewrite Hstore. destruct (next_fault c); [assumption | apply well_typed_gob; assumption].
  - destruct (destroySessionData_run c) as (c' & Hrun & _ & Hvalues & Hstore & _).
    unfold mbind, Prog_bind. rewrite Hrun. exists c'. split; [reflexivity|].
    assert (Hv' : well_typed_values (values c'))
      by (rewrite Hvalues; apply well_typed_delete; exact Hv).
    split; [exact Hv'|]. rewrite Hstore. destruct (next_fault c); [assumption | apply well_typed_gob; assumption].
  - destruct (well_typed_pending _ Hv) as [fs Hp].
    assert (Hl : values c !! flashKey = Some (ASlice (map AFlashData fs)) \/
                 (values c !! flashKey = None /\
                  map (AFlashData (FormValue := FormValue)) fs = []))
      by (destruct Hp as [Hp|[Hp ->]]; auto).
    destruct (setFlashMessage_run c message typ _ Hl) as (c' & Hrun & _ & Hvalues & Hstore).
    rewrite Hrun. exists c'. split; [reflexivity|].
    assert (Hv' : well_typed_values (values c')).
    { rewrite Hvalues.
      change [AFlashData {| HasAlert := false; Message := message; Type_ := typ |}]
        with (map (AFlashData (FormValue := FormValue))
                  [{| HasAlert := false; Message := message; Type_ := typ |}]).
      rewrite <- map_app. apply well_typed_insert_flashes. exact Hv. }
    split; [exact Hv'|]. rewrite Hstore. destruct (next_fault c); [assumption | apply well_typed_gob; assumption].
  - eexists. split; [reflexivity|]. split; exact Hs.
Qed.

(** X13: the type assertions of the helpers never fail on a session that only
    the helpers have written.  With payloads of the types [init] registers
    with gob, from a session whose values are well typed (an empty one, for a
    start), any sequence of helper calls and request boundaries, with any
    outcomes of the writes to the store, runs without a panic and leaves the
    session and the store well typed. *)
Theorem helpers_never_panic (us : list (Use FormValue)) c :
  well_typed c ->
  exists c', use_all us c = (c', Val tt) /\ well_typed c'.
Proof.
  revert c. induction us as [|u us IH]; intros c Hwt.
  - exists c. split; [reflexivity | exact Hwt].
  - destruct (use_keeps_well_typed u c Hwt) as (c1 & Hrun & Hwt1).
    destruct (IH c1 Hwt1) as (c' & Hrest & Hwt').
    exists c'. split; [|exact Hwt'].
    cbn [use_all]. unfold mbind, Prog_bind. rewrite Hrun. exact Hrest.
Qed.

(** X14: flashes queue up in the order they are set.  When the session holds
    the flashes [fs], [setFlashMessage] returns and the session then holds
    [fs] followed by the new flash (with [HasAlert] false), which is what
    the next [getFlashes] returns. *)
Theorem flashes_queue_in_order c fs (message typ : string) :
  pending (values c) fs ->
  let new := {| HasAlert := false; Message := message; Type_ := typ |} in
  (getFlashes c).2 = Val fs /\
  (setFlashMessage message typ c).2 = Val tt /\
  pending (values (setFlashMessage message typ c).1) (fs ++ [new]) /\
  (getFlashes (setFlashMessage message typ c).1).2 = Val (fs ++ [new]).
Proof.
  intros Hp new.
  destruct (getFlashes_pending c fs Hp) as (c0 & Hget & _).
  assert (Hl : values c !! flashKey = Some (ASlice (map AFlashData fs)) \/
               (values c !! flashKey = None /\
                  map (AFlashData (FormValue := FormValue)) fs = []))
    by (destruct Hp as [Hp|[Hp ->]]; auto).
  destruct (setFlashMessage_run c message typ _ Hl) as (c1 & Hset & _ & Hvalues & _).
  rewrite Hget, Hset. cbn.
  assert (Hp1 : pending (values c1) (fs ++ [new])).
  { left. rewrite Hvalues, lookup_insert_eq, map_app. reflexivity. }
  destruct (getFlashes_pending c1 _ Hp1) as (c2 & Hget1 & _).
  rewrite Hget1. auto.
Qed.

(** X15: the session record and the flashes do not disturb each other.
    Setting or reading flashes leaves what is stored under
    [SessionIdentifier] as it was (also when they panic); updating or
    destroying the session record leaves the pending flashes. *)
Theorem session_record_and_flashes_are_independent c :
  (forall message typ,
     values (setFlashMessage message typ c).1 !! SessionIdentifier
       = values c !! SessionIdentifier) /\
  values (getFlashes c).1 !! SessionIdentifier = values c !! SessionIdentifier /\
  (forall data,
     values (updateSessionData data c).1 !! flashKey = values c !! flashKey) /\
  values (destroySessionData c).1 !! flashKey = values c !! flashKey.
Proof.
  assert (Hne : flashKey <> SessionIdentifier)
    by (intros Heq; apply keys_differ; congruence).
  split; [|split; [|split]].
  - intros message typ. run_handler.
    destruct (values c !! flashKey) as [[d|f|l]|]; cbn; try reflexivity;
      destruct (faults c) as [|[e|] rest]; cbn;
      rewrite lookup_insert_ne by exact Hne; reflexivity.
  - run_handler.
    destruct (values c !! flashKey) as [[d|f|l]|] eqn:Hv; cbn;
      try (rewrite lookup_delete_ne by exact Hne; reflexivity).
    + destruct (faults c) as [|[e|] rest]; cbn;
        match goal with
        | |- context [convert_flashes l ?c0] =>
            pose proof (convert_flashes_pure l c0) as Hp;
            destruct (convert_flashes l c0) as [c1 r]; cbn in Hp; subst c1
        end; cbn; rewrite lookup_delete_ne by exact Hne; reflexivity.
    + destruct (faults c) as [|[e|] rest]; reflexivity.
  - intros data.
    destruct (updateSessionData_run c data) as (c' & Hrun & _ & Hvalues & _).
    rewrite Hrun. cbn. rewrite Hvalues. apply lookup_insert_ne, keys_differ.
  - destruct (destroySessionData_run c) as (c' & Hrun & _ & Hvalues & _).
    rewrite Hrun. cbn. rewrite Hvalues. apply lookup_delete_ne, keys_differ.
Qed.

(** X16: after [destroySessionData], whatever it returned, [getSessionData]
    in the same request gives the default record (logged out, not admin).
    When it returned nil the next request starts from the default record as
    well; when it returned an error the store still holds the old record,
    and the next request gets that one back. *)
Theorem destroy_then_get c :
  (exists d, (getSessionData (destroySessionData c).1).2 = Val d /\
             LoggedIn d = false /\ IsAdmin d = false /\ UID d = "" /\
             SortedBy d = "mail" /\ SortDirection d = "asc") /\
  ((destroySessionData c).2 = Val None ->
   exists d, (getSessionData (next_request (destroySessionData c).1)).2 = Val d /\
             LoggedIn d = false /\ IsAdmin d = false /\ UID d = "" /\
             SortedBy d = "mail" /\ SortDirection d = "asc") /\
  (forall e d0,
     (destroySessionData c).2 = Val (Some e) ->
     store c !! SessionIdentifier = Some (ASessionData d0) ->
     (getSessionData (next_request (destroySessionData c).1)).2 = Val d0).
Proof.
  destruct (destroySessionData_run c) as (c' & Hrun & _ & Hvalues & Hstore & _).
  rewrite Hrun. cbn.
  assert (Hgone : values c' !! SessionIdentifier = None)
    by (rewrite Hvalues; apply lookup_delete_eq).
  split; [|split].
  - destruct (getSessionData_missing c' Hgone) as (d & c2 & Hget & -> & _).
    rewrite Hget. eexists. split; [reflexivity|]. cbn. auto.
  - intros [= Hok]. rewrite Hok in Hstore.
    assert (Hnext : values (next_request c') !! SessionIdentifier = None)
      by (cbn; rewrite Hstore, lookup_gob, Hgone; reflexivity).
    destruct (getSessionData_missing _ Hnext) as (d & c2 & Hget & -> & _).
    rewrite Hget. eexists. split; [reflexivity|]. cbn. auto.
  - intros e d0 [= Hfail] Hold. rewrite Hfail in Hstore.
    assert (Hnext : values (next_request c') !! SessionIdentifier = Some (ASessionData d0))
      by (cbn; rewrite Hstore; exact Hold).
    rewrite (getSessionData_existing _ d0 Hnext). reflexivity.
Qed.

(** X17: the write to the store decides what the store holds after a helper.
    For each helper that writes ([updateSessionData], [destroySessionData],
    [getSessionData] on a session without record, and [getFlashes] and
    [setFlashMessage] when they return): when the write succeeds the store
    holds the gob copy of the values of the session (which keeps its own
    values, so that a payload can differ between the two), and when it fails
    the store is as it was before. *)
Theorem write_outcome_decides_store c :
  let kept c' := store c' = match next_fault c with
                            | None => gob_Any <$> values c'
                            | Some _ => store c
                            end in
  (forall data, kept (updateSessionData data c).1) /\
  kept (destroySessionData c).1 /\
  (values c !! SessionIdentifier = None -> kept (getSessionData c).1) /\
  (forall fs, (getFlashes c).2 = Val fs -> kept (getFlashes c).1) /\
  (forall message typ,
     (setFlashMessage message typ c).2 = Val tt ->
     kept (setFlashMessage message typ c).1).
Proof.
  intros kept. unfold kept. split; [|split; [|split; [|split]]].
  - intros data. destruct (updateSessionData_run c data) as (c' & Hrun & _ & _ & Hstore & _).
    rewrite Hrun. exact Hstore.
  - destruct (destroySessionData_run c) as (c' & Hrun & _ & _ & Hstore & _).
    rewrite Hrun. exact Hstore.
  - intros Hnone.
    destruct (getSessionData_missing c Hnone) as (d & c' & Hrun & _ & _ & _ & Hstore & _).
    rewrite Hrun. exact Hstore.
  - intros fs Hret. destruct (getFlashes_returns c fs Hret) as [Hvalues Hstore].
    rewrite Hstore, Hvalues. reflexivity.
  - intros message typ Hret.
    destruct (setFlashMessage_returns c message typ Hret) as [l Hl].
    destruct (setFlashMessage_run c message typ l Hl) as (c' & Hrun & _ & _ & Hstore).
    rewrite Hrun. exact Hstore.
Qed.

(** X18: a write that failed is made up for by the next write that succeeds.
    When [updateSessionData] returned an error, the record is in the session
    but not in the store; if [setFlashMessage] (by which a handler reports
    the failure) then writes successfully, the store holds the gob copy of
    the record all the same, and the next request reads that copy. *)
Theorem failed_update_is_saved_by_next_write c data (e message typ : string) :
  (updateSessionData data c).2 = Val (Some e) ->
  next_fault (updateSessionData data c).1 = None ->
  (setFlashMessage message typ (updateSessionData data c).1).2 = Val tt ->
  store (updateSessionData data c).1 = store c /\
  store (setFlashMessage message typ (updateSessionData data c).1).1
    !! SessionIdentifier = Some (ASessionData (gob_SessionData data)) /\
  (getSessionData
     (next_request (setFlashMessage message typ (updateSessionData data c).1).1)).2
    = Val (gob_SessionData data).
Proof.
  destruct (updateSessionData_run c data) as (c1 & Hrun & _ & Hvalues & Hstore & _).
  rewrite Hrun. cbn. intros [= Hfail] Hok Hret.
  rewrite Hfail in Hstore.
  destruct (setFlashMessage_returns c1 message typ Hret) as [l Hl].
  destruct (setFlashMessage_run c1 message typ l Hl) as (c2 & Hset & _ & Hvalues2 & Hstore2).
  rewrite Hset. cbn. rewrite Hok in Hstore2.
  assert (Hin : store c2 !! SessionIdentifier = Some (ASessionData (gob_SessionData data))).
  { rewrite Hstore2, lookup_gob, Hvalues2.
    rewrite lookup_insert_ne by (intros Heq; apply keys_differ; congruence).
    rewrite Hvalues, lookup_insert_eq. reflexivity. }
  split; [exact Hstore|]. split; [exact Hin|].
  assert (Hnext : values (next_request c2) !! SessionIdentifier
                  = Some (ASessionData (gob_SessionData data)))
    by exact Hin.
  rewrite (getSessionData_existing _ _ Hnext). reflexivity.
Qed.

End MoreSessionFacts.

Lemma helpers_never_panic_witness :
  let us := [UseGetSessionData; UseSetFlashMessage "peer created" "success";
             UseUpdateSessionData sample_SessionData; NextRequest;
             UseGetFlashes; UseDestroySessionData; UseGetSessionData] in
  well_typed (fresh_request [Some "write failed"]) /\
  exists c', use_all us (fresh_request [Some "write failed"]) = (c', Val tt) /\
             well_typed c'.
Proof.
  assert (H : well_typed (fresh_request [Some "write failed"])).
  { split; split; intros v Hv; vm_compute in Hv; discriminate Hv. }
  split; [exact H|].
  exact (helpers_never_panic _ (fresh_request [Some "write failed"]) H).
Defined.

Lemma flashes_queue_in_order_witness :
  let new := {| HasAlert := false; Message := "peer deleted"; Type_ := "warning" |} in
  pending (values (returning_request [])) [sample_FlashData] /\
  (getFlashes (returning_request [])).2 = Val [sample_FlashData] /\
  (setFlashMessage "peer deleted" "warning" (returning_request [])).2 = Val tt /\
  pending (values (setFlashMessage "peer deleted" "warning" (returning_request [])).1)
          ([sample_FlashData] ++ [new]) /\
  (getFlashes (setFlashMessage "peer deleted" "warning" (returning_request [])).1).2
    = Val ([sample_FlashData] ++ [new]).
Proof.
  assert (H : pending (values (returning_request [])) [sample_FlashData])
    by (left; reflexivity).
  split; [exact H|].
  exact (flashes_queue_in_order (returning_request []) [sample_FlashData]
           "peer deleted" "warning" H).
Defined.

Lemma destroy_then_get_witness :
  (destroySessionData (returning_request [Some "write failed"])).2
    = Val (Some "write failed") /\
  store (returning_request [Some "write failed"]) !! SessionIdentifier
    = Some (ASessionData sample_SessionData) /\
  (getSessionData
     (next_request (destroySessionData (returning_request [Some "write failed"])).1)).2
    = Val sample_SessionData.
Proof.
  assert (H1 : (destroySessionData (returning_request [Some "write failed"])).2
               = Val (Some "write failed")) by reflexivity.
  assert (H2 : store (returning_request [Some "write failed"]) !! SessionIdentifier
               = Some (ASessionData sample_SessionData)) by reflexivity.
  split; [exact H1|]. split; [exact H2|].
  exact (proj2 (proj2 (destroy_then_get (returning_request [Some "write failed"])))
           "write failed" sample_SessionData H1 H2).
Defined.

Lemma write_outcome_decides_store_witness :
  values (fresh_request []) !! SessionIdentifier = None /\
  store (getSessionData (fresh_request [])).1
    = gob_Any <$> values (getSessionData (fresh_request [])).1 /\
  (setFlashMessage "peer created" "success" (fresh_request [Some "write failed"])).2 = Val tt /\
  store (setFlashMessage "peer created" "success" (fresh_request [Some "write failed"])).1
    = store (fresh_request [Some "write failed"]).
Proof.
  assert (H1 : values (fresh_request []) !! SessionIdentifier = None) by reflexivity.
  assert (H2 : (setFlashMessage "peer created" "success"
                  (fresh_request [Some "write failed"])).2 = Val tt) by reflexivity.
  split; [exact H1|]. split; [|split; [exact H2|]].
  - exact (proj1 (proj2 (proj2 (write_outcome_decides_store (fresh_request [])))) H1).
  - exact (proj2 (proj2 (proj2 (proj2
             (write_outcome_decides_store (fresh_request [Some "write failed"])))))
             "peer created" "success" H2).
Defined.

Lemma failed_update_is_saved_by_next_write_witness :
  let c := fresh_request [Some "write failed"] in
  (updateSessionData sample_SessionData c).2 = Val (Some "write failed") /\
  next_fault (updateSessionData sample_SessionData c).1 = None /\
  (setFlashMessage "could not save" "danger" (updateSessionData sample_SessionData c).1).2
    = Val tt /\
  store (updateSessionData sample_SessionData c).1 = store c /\
  store (setFlashMessage "could not save" "danger"
           (updateSessionData sample_SessionData c).1).1
    !! SessionIdentifier = Some (ASessionData (gob_SessionData sample_SessionData)) /\
  (getSessionData
     (next_request (setFlashMessage "could not save" "danger"
                      (updateSessionData sample_SessionData c).1).1)).2
    = Val (gob_SessionData sample_SessionData).
Proof.
  assert (H1 : (updateSessionData sample_SessionData
                  (fresh_request [Some "write failed"])).2 = Val (Some "write failed"))
    by reflexivity.
  assert (H2 : next_fault (updateSessionData sample_SessionData
                             (fresh_request [Some "write failed"])).1 = None)
    by reflexivity.
  assert (H3 : (setFlashMessage "could not save" "danger"
                  (updateSessionData sample_SessionData
                     (fresh_request [Some "write failed"])).1).2 = Val tt)
    by reflexivity.
  split; [exact H1|]. split; [exact H2|]. split; [exact H3|].
  exact (failed_update_is_saved_by_next_write (fresh_request [Some "write failed"])
           sample_SessionData "write failed" "could not save" "danger" H1 H2 H3).
Defined.
